(** * OpenTelemetry configuration of the host inventory service

    A shallow embedding of [app/otel_config.py]: the configuration object
    read from the process environment, the tracing set-up, the activation of
    the library instrumentations and the module-level accessors, together
    with the properties of them that the specification states.

    Conventions of the embedding.
    - A Python [str] is a [string]; a character is its code point, so the
      embedding covers the strings whose code points are below 256.
    - A Python [dict] from strings to strings is a [gmap string string].
    - Effects are threaded through a state-and-exception monad over a
      [World]: the process environment, the module global [_otel_config],
      the process-wide state of the tracing packages and the chronological
      list of everything the module did to the outside (environment reads,
      log records, calls into the tracing packages).
    - Whether a call into the tracing packages raises is not decided by this
      module: it is a parameter [sdk] of the development. *)

From Stdlib Require Import ZArith Ascii String List Bool Lia.
From stdpp Require Import base option list strings gmap fin_maps.

Set Warnings "-register-all".
Open Scope string_scope.
Open Scope list_scope.
Open Scope Z_scope.

(** ** Builtins of the interpreter used by the module *)

Module Py.

(** Code point of a character. *)
Definition ord (a : ascii) : N := N_of_ascii a.

(** [str.isspace] on one character: the white space of [str.strip], [int]
    and [float] (code points below 256). *)
Definition isspace (a : ascii) : bool :=
  let n := ord a in
  ((9 <=? n) && (n <=? 13) || (28 <=? n) && (n <=? 32)
   || (n =? 133) || (n =? 160))%N.

(** [str.lower] on one character. *)
Definition lower_char (a : ascii) : ascii :=
  let n := ord a in
  if ((65 <=? n) && (n <=? 90)
      || (192 <=? n) && (n <=? 222) && negb (n =? 215))%N
  then ascii_of_N (n + 32) else a.

(** [s.lower()] *)
Fixpoint lower (s : string) : string :=
  match s with
  | EmptyString => EmptyString
  | String a r => String (lower_char a) (lower r)
  end.

(** [s.lstrip()] *)
Fixpoint lstrip (s : string) : string :=
  match s with
  | EmptyString => EmptyString
  | String a r => if isspace a then lstrip r else s
  end.

(** [s.rstrip()] *)
Fixpoint rstrip (s : string) : string :=
  match s with
  | EmptyString => EmptyString
  | String a r =>
      match rstrip r with
      | EmptyString => if isspace a then EmptyString else String a EmptyString
      | r' => String a r'
      end
  end.

(** [s.strip()] *)
Definition strip (s : string) : string := rstrip (lstrip s).

(** [c in s] for a one-character [c]. *)
Fixpoint contains (c : ascii) (s : string) : bool :=
  match s with
  | EmptyString => false
  | String a r => Ascii.eqb a c || contains c r
  end.

(** [s.split(c)] for a one-character separator: never empty. *)
Fixpoint split (c : ascii) (s : string) : list string :=
  match s with
  | EmptyString => [EmptyString]
  | String a r =>
      if Ascii.eqb a c then EmptyString :: split c r
      else match split c r with
           | h :: t => String a h :: t
           | [] => [String a EmptyString]
           end
  end.

(** [s.split(c, 1)]: at most one split, at the first occurrence of [c]. *)
Fixpoint split1 (c : ascii) (s : string) : list string :=
  match s with
  | EmptyString => [EmptyString]
  | String a r =>
      if Ascii.eqb a c then [EmptyString; r]
      else match split1 c r with
           | h :: t => String a h :: t
           | [] => [String a EmptyString]
           end
  end.

(** Truth value of a string: [if s:]. *)
Definition truthy (s : string) : bool :=
  match s with EmptyString => false | _ => true end.

(** *** Numeric literals *)

Definition digit_value (a : ascii) : option N :=
  let n := ord a in
  if ((48 <=? n) && (n <=? 57))%N then Some (n - 48)%N else None.

(** The digits that follow a digit just read, a single underscore being
    allowed between two digits: the digits read and what is left of [s]. *)
Fixpoint digits_after (s : string) : list N * string :=
  match s with
  | String a r =>
      match digit_value a with
      | Some d => let '(ds, rest) := digits_after r in (d :: ds, rest)
      | None =>
          if Ascii.eqb a "_" then
            match r with
            | String b r' =>
                match digit_value b with
                | Some d => let '(ds, rest) := digits_after r' in (d :: ds, rest)
                | None => ([], s)
                end
            | EmptyString => ([], s)
            end
          else ([], s)
      end
  | EmptyString => ([], s)
  end.

(** A non-empty run of digits (with underscores between digits) at the
    start of [s]. *)
Definition digitpart (s : string) : option (list N * string) :=
  match s with
  | String a r =>
      match digit_value a with
      | Some d => let '(ds, rest) := digits_after r in Some (d :: ds, rest)
      | None => None
      end
  | EmptyString => None
  end.

(** Value of a list of decimal digits, most significant first. *)
Definition of_digits (ds : list N) : N :=
  fold_left (fun acc d => (10 * acc + d)%N) ds 0%N.

(** An optional sign at the start of [s]: [true] for a minus. *)
Definition sign (s : string) : bool * string :=
  match s with
  | String a r =>
      if Ascii.eqb a "-" then (true, r)
      else if Ascii.eqb a "+" then (false, r)
      else (false, s)
  | EmptyString => (false, s)
  end.

(** [int(s)] (base 10): [None] stands for [ValueError].  The limit that the
    interpreter may put on the number of digits is not modelled. *)
Definition int (s : string) : option Z :=
  let '(neg, body) := sign (strip s) in
  match digitpart body with
  | Some (ds, EmptyString) =>
      let n := Z.of_N (of_digits ds) in
      Some (if neg then - n else n)
  | _ => None
  end.

(** The value of a float literal, before rounding to a double: the claims
    only depend on whether the literal is accepted. *)
Inductive float_value : Type :=
| FNan
| FInf (negative : bool)
| FDec (negative : bool) (mantissa : N) (exp10 : Z).

(** The exponent part: [e] or [E], an optional sign, a digit part.  When
    what follows [e] is no exponent, nothing is consumed. *)
Definition exponent (s : string) : Z * string :=
  match s with
  | String a r =>
      if Ascii.eqb (lower_char a) "e" then
        let '(neg, r') := sign r in
        match digitpart r' with
        | Some (ds, rest) =>
            let n := Z.of_N (of_digits ds) in
            ((if neg then - n else n), rest)
        | None => (0, s)
        end
      else (0, s)
  | EmptyString => (0, s)
  end.

(** The digits after the point, when there are any. *)
Definition fraction (s : string) : list N * string :=
  match digitpart s with
  | Some (ds, rest) => (ds, rest)
  | None => ([], s)
  end.

(** A decimal number with an optional fraction and exponent; at least one
    digit before or after the point. *)
Definition decimal (neg : bool) (s : string) : option float_value :=
  let finish (ip fp : list N) (rest : string) :=
    let '(e, rest') := exponent rest in
    match rest' with
    | EmptyString =>
        Some (FDec neg (of_digits (ip ++ fp)) (e - Z.of_nat (length fp)))
    | _ => None
    end in
  match digitpart s with
  | Some (ip, String a r) =>
      if Ascii.eqb a "." then
        let '(fp, rest) := fraction r in finish ip fp rest
      else finish ip [] (String a r)
  | Some (ip, EmptyString) => finish ip [] EmptyString
  | None =>
      match s with
      | String a r =>
          if Ascii.eqb a "." then
            match digitpart r with
            | Some (fp, rest) => finish [] fp rest
            | None => None
            end
          else None
      | EmptyString => None
      end
  end.

(** [float(s)]: [None] stands for [ValueError]. *)
Definition float (s : string) : option float_value :=
  let '(neg, body) := sign (strip s) in
  let low := lower body in
  if String.eqb low "inf" || String.eqb low "infinity" then Some (FInf neg)
  else if String.eqb low "nan" then Some FNan
  else decimal neg body.

End Py.

(** ** Exceptions and log records *)

(** The [ValueError]s the module can meet. *)
Inductive value_error : Type :=
| NotEnoughValues (expected got : nat)
    (* not enough values to unpack (expected 2, got 1) *)
| BadFloatLiteral (s : string)   (* could not convert string to float *)
| BadIntLiteral (s : string)     (* invalid literal for int() with base 10 *)
| OtherValueError (msg : string).

(** An exception: an instance of a class deriving from [Exception].
    [Exception_ cls msg] is an instance of a class [cls] that does not derive
    from [ValueError]. *)
Inductive exn : Type :=
| ValueError (why : value_error)
| Exception_ (cls msg : string).

(** [isinstance(e, ValueError)] *)
Definition is_ValueError (e : exn) : bool :=
  match e with ValueError _ => true | Exception_ _ _ => false end.

Inductive log_level : Type := INFO | WARNING.

(** An argument of a log call: a string or an exception object. *)
Inductive log_arg : Type :=
| ArgStr (s : string)
| ArgExn (e : exn).

(** ** Objects of the tracing packages

    The objects are symbolic: an object is the constructor call that made
    it. *)

Inductive SpanExporter : Type :=
| JaegerExporter (agent_host_name : string) (agent_port : Z)
| OTLPSpanExporter (endpoint : string)
| ConsoleSpanExporter.

Inductive SpanProcessor : Type :=
| BatchSpanProcessor (exporter : SpanExporter).

Inductive TextMapPropagator : Type :=
| TraceContextPropagator
| B3MultiFormat
| JaegerPropagator
| CompositeHTTPPropagator (propagators : list TextMapPropagator).

(** The result of [Resource.create(attributes)]. *)
Record Resource : Type := { attributes : gmap string string }.

(** A tracer provider: a mutable object owning its resource and the span
    processors added to it. *)
Record TracerProvider : Type := {
  resource : Resource;
  span_processors : list SpanProcessor;
}.

Definition add_processor (p : SpanProcessor) (tp : TracerProvider) :
  TracerProvider :=
  {| resource := resource tp;
     span_processors := span_processors tp ++ [p] |}.

(** The four libraries with an instrumentor. *)
Inductive library : Type := Flask | SQLAlchemy | Kafka | Psycopg2.

Definition library_name (l : library) : string :=
  match l with
  | Flask => "Flask"
  | SQLAlchemy => "SQLAlchemy"
  | Kafka => "Kafka"
  | Psycopg2 => "Psycopg2"
  end.

(** A tracer handed out by [trace.get_tracer]. *)
Inductive Tracer : Type :=
| NoOpTracer (name : string)
| SdkTracer (name : string).

(** A span handed out by a tracer. *)
Inductive Span : Type :=
| NonRecordingSpan
| RecordingSpan (name : string) (attrs : gmap string string).

(** The calls the module makes into the tracing packages. *)
Inductive sdk_call : Type :=
| Resource_create (attrs : gmap string string)
| TracerProvider_new (r : Resource)
| set_tracer_provider (tp : TracerProvider)
| SpanExporter_new (e : SpanExporter)
| SpanProcessor_new (p : SpanProcessor)
| add_span_processor (p : SpanProcessor)
| Propagator_new (p : TextMapPropagator)
| set_global_textmap (p : TextMapPropagator)
| Instrumentor_new (l : library)
| instrument (l : library).

(** What the module does to the outside, in program order.  A call is
    recorded with its outcome: [None] when it returned, [Some e] when it
    raised [e]. *)
Inductive event : Type :=
| Getenv (name : string)
| Log (level : log_level) (fmt : string) (args : list log_arg)
| Call (c : sdk_call) (raised : option exn).

(** ** The configuration object *)

Record OpenTelemetryConfig : Type := {
  service_name : string;
  service_version : string;
  environment : string;
  otel_enabled : bool;
  jaeger_endpoint : option string;
  otlp_endpoint : option string;
  console_exporter : bool;
  trace_sample_rate : Py.float_value;
  instrument_flask : bool;
  instrument_sqlalchemy : bool;
  instrument_kafka : bool;
  instrument_psycopg2 : bool;
  custom_attributes : gmap string string;
}.

(** ** The world and the monad *)

Record World : Type := {
  environ : gmap string string;            (* os.environ *)
  _otel_config : option OpenTelemetryConfig; (* the module global *)
  tracer_provider : option TracerProvider; (* installed tracer provider *)
  global_textmap : option TextMapPropagator; (* installed propagator *)
  finished_spans : list (string * gmap string string);
                                           (* spans given to the exporters *)
  events : list event;
}.

(** The world of a fresh process with environment [env]. *)
Definition initial_world (env : gmap string string) : World :=
  {| environ := env; _otel_config := None; tracer_provider := None;
     global_textmap := None; finished_spans := []; events := [] |}.

(** The environment is changed from outside the module. *)
Definition set_environ (env : gmap string string) (w : World) : World :=
  {| environ := env; _otel_config := _otel_config w;
     tracer_provider := tracer_provider w;
     global_textmap := global_textmap w;
     finished_spans := finished_spans w; events := events w |}.

Inductive Res (A : Type) : Type :=
| Ok (a : A)
| Raise (e : exn).
Arguments Ok {A} a.
Arguments Raise {A} e.

Definition M (A : Type) : Type := World -> World * Res A.

Definition ret {A} (a : A) : M A := fun w => (w, Ok a).

Definition raise {A} (e : exn) : M A := fun w => (w, Raise e).

Definition bind {A B} (m : M A) (k : A -> M B) : M B :=
  fun w =>
    match m w with
    | (w', Ok a) => k a w'
    | (w', Raise e) => (w', Raise e)
    end.

(** [try: body except <class> as e: handler e]: what [body] did to the world
    before raising stays done. *)
Definition try_except {A} (body : M A) (catches : exn -> bool)
    (handler : exn -> M A) : M A :=
  fun w =>
    match body w with
    | (w', Ok a) => (w', Ok a)
    | (w', Raise e) => if catches e then handler e w' else (w', Raise e)
    end.

Declare Scope py_scope.
Delimit Scope py_scope with py.
Notation "x <- c1 ;; c2" := (bind c1 (fun x => c2))
  (at level 100, c1 at next level, right associativity) : py_scope.
Notation "c1 ;; c2" := (bind c1 (fun _ => c2))
  (at level 100, right associativity) : py_scope.
Open Scope py_scope.

(** [for x in l: body x] *)
Fixpoint for_each {A} (l : list A) (body : A -> M unit) : M unit :=
  match l with
  | [] => ret tt
  | x :: r => body x ;; for_each r body
  end.

Definition emit (e : event) : M unit :=
  fun w =>
    ({| environ := environ w; _otel_config := _otel_config w;
        tracer_provider := tracer_provider w;
        global_textmap := global_textmap w;
        finished_spans := finished_spans w;
        events := events w ++ [e] |}, Ok tt).

(** [os.getenv(name)] *)
Definition os_getenv (name : string) : M (option string) :=
  emit (Getenv name) ;; fun w => (w, Ok (environ w !! name)).

(** [os.getenv(name, default)] *)
Definition os_getenv_default (name dflt : string) : M string :=
  v <- os_getenv name ;; ret (default dflt v).

(** [logger.info(fmt, *args)] and [logger.warning(fmt, *args)] *)
Definition logger_info (fmt : string) (args : list log_arg) : M unit :=
  emit (Log INFO fmt args).

Definition logger_warning (fmt : string) (args : list log_arg) : M unit :=
  emit (Log WARNING fmt args).

(** [key, value = l] *)
Definition unpack2 (l : list string) : Res (string * string) :=
  match l with
  | [k; v] => Ok (k, v)
  | _ => Raise (ValueError (NotEnoughValues 2 (length l)))
  end.

(** The name of the module, the default tracer name. *)
Definition __name__ : string := "app.otel_config".

(** The loop of [_parse_custom_attributes] (lines 63 to 65) over the local
    dictionary [attributes]: the dictionary as the loop leaves it, and the
    exception that ended the loop if one did. *)
Fixpoint parse_loop (attributes : gmap string string) (l : list string) :
    gmap string string * Res unit :=
  match l with
  | [] => (attributes, Ok tt)
  | attr :: rest =>
      match unpack2 (Py.split1 "=" (Py.strip attr)) with
      | Ok (key, value) => parse_loop (<[key := value]> attributes) rest
      | Raise e => (attributes, Raise e)
      end
  end.

(** [OpenTelemetryConfig._parse_custom_attributes] *)
Definition _parse_custom_attributes : M (gmap string string) :=
  let attributes : gmap string string := ∅ in
  custom_attrs <- os_getenv_default "OTEL_CUSTOM_ATTRIBUTES" "" ;;
  if Py.truthy custom_attrs then
    match parse_loop attributes (Py.split "," custom_attrs) with
    | (attributes, Ok _) => ret attributes
    | (attributes, Raise e) =>
        if is_ValueError e then
          logger_warning "Failed to parse OTEL_CUSTOM_ATTRIBUTES: %s"
            [ArgExn e] ;;
          ret attributes
        else raise e
    end
  else ret attributes.

(** [float(s)] as a computation. *)
Definition float (s : string) : M Py.float_value :=
  match Py.float s with
  | Some x => ret x
  | None => raise (ValueError (BadFloatLiteral s))
  end.

(** [int(s)] as a computation. *)
Definition int (s : string) : M Z :=
  match Py.int s with
  | Some n => ret n
  | None => raise (ValueError (BadIntLiteral s))
  end.

(** [l[i]] *)
Definition index (l : list string) (i : nat) : M string :=
  match l !! i with
  | Some x => ret x
  | None => raise (Exception_ "IndexError" "list index out of range")
  end.

(** [OpenTelemetryConfig.__init__] *)
Definition __init__ : M OpenTelemetryConfig :=
  service_name <-
    os_getenv_default "OTEL_SERVICE_NAME" "insights-host-inventory" ;;
  service_version <- os_getenv_default "OTEL_SERVICE_VERSION" "1.0.0" ;;
  environment <- os_getenv_default "OTEL_ENVIRONMENT" "development" ;;
  v <- os_getenv_default "OTEL_ENABLED" "false" ;;
  let otel_enabled := String.eqb (Py.lower v) "true" in
  jaeger_endpoint <- os_getenv "OTEL_JAEGER_ENDPOINT" ;;
  otlp_endpoint <- os_getenv "OTEL_OTLP_ENDPOINT" ;;
  v <- os_getenv_default "OTEL_CONSOLE_EXPORTER" "false" ;;
  let console_exporter := String.eqb (Py.lower v) "true" in
  v <- os_getenv_default "OTEL_TRACE_SAMPLE_RATE" "0.1" ;;
  trace_sample_rate <- float v ;;
  v <- os_getenv_default "OTEL_INSTRUMENT_FLASK" "true" ;;
  let instrument_flask := String.eqb (Py.lower v) "true" in
  v <- os_getenv_default "OTEL_INSTRUMENT_SQLALCHEMY" "true" ;;
  let instrument_sqlalchemy := String.eqb (Py.lower v) "true" in
  v <- os_getenv_default "OTEL_INSTRUMENT_KAFKA" "true" ;;
  let instrument_kafka := String.eqb (Py.lower v) "true" in
  v <- os_getenv_default "OTEL_INSTRUMENT_PSYCOPG2" "true" ;;
  let instrument_psycopg2 := String.eqb (Py.lower v) "true" in
  custom_attributes <- _parse_custom_attributes ;;
  ret {| service_name := service_name;
         service_version := service_version;
         environment := environment;
         otel_enabled := otel_enabled;
         jaeger_endpoint := jaeger_endpoint;
         otlp_endpoint := otlp_endpoint;
         console_exporter := console_exporter;
         trace_sample_rate := trace_sample_rate;
         instrument_flask := instrument_flask;
         instrument_sqlalchemy := instrument_sqlalchemy;
         instrument_kafka := instrument_kafka;
         instrument_psycopg2 := instrument_psycopg2;
         custom_attributes := custom_attributes |}.

(** The dictionary of lines 78 to 83: the three fixed entries, then the
    entries of [custom_attributes] written over them. *)
Definition resource_attributes (self : OpenTelemetryConfig) :
    gmap string string :=
  custom_attributes self ∪
  <["deployment.environment" := environment self]>
    (<["service.version" := service_version self]>
       (<["service.name" := service_name self]> ∅)).

(** [get_otel_config] *)
Definition get_otel_config : M OpenTelemetryConfig :=
  fun w =>
    match _otel_config w with
    | None =>
        (config <- __init__ ;;
         (fun w' =>
            ({| environ := environ w'; _otel_config := Some config;
                tracer_provider := tracer_provider w';
                global_textmap := global_textmap w';
                finished_spans := finished_spans w';
                events := events w' |}, Ok tt)) ;;
         ret config) w
    | Some config => (w, Ok config)
    end.

(** Modelled from the spec: [trace.get_tracer] of the tracing API, which is
    not part of the sources.  Section 4.5: when tracing was never
    initialised the tracer is a no-op tracer; otherwise it is a tracer of
    the registered provider.  No error occurs. *)
Definition trace_get_tracer (name : string) : M Tracer :=
  fun w =>
    match tracer_provider w with
    | None => (w, Ok (NoOpTracer name))
    | Some _ => (w, Ok (SdkTracer name))
    end.

(** Modelled from the spec: starting a span on a tracer of the tracing API,
    which is not part of the sources.  Section 4.5: on a no-op tracer spans
    can be started, attributes set and scopes closed, but no data is
    recorded or exported and no error occurs.  Section 5: closing a
    recording span hands it to the export pipeline. *)
Definition start_span (t : Tracer) (name : string) : M Span :=
  match t with
  | NoOpTracer _ => ret NonRecordingSpan
  | SdkTracer _ => ret (RecordingSpan name ∅)
  end.

(** Modelled from the spec: setting an attribute on a span (section 4.5);
    on a non-recording span nothing is kept. *)
Definition set_attribute (sp : Span) (key value : string) : M Span :=
  match sp with
  | NonRecordingSpan => ret NonRecordingSpan
  | RecordingSpan name attrs => ret (RecordingSpan name (<[key := value]> attrs))
  end.

(** Modelled from the spec: closing the scope of a span (sections 4.5 and
    5); a non-recording span is not handed to the export pipeline. *)
Definition end_span (sp : Span) : M unit :=
  match sp with
  | NonRecordingSpan => ret tt
  | RecordingSpan name attrs =>
      fun w =>
        ({| environ := environ w; _otel_config := _otel_config w;
            tracer_provider := tracer_provider w;
            global_textmap := global_textmap w;
            finished_spans := finished_spans w ++ [(name, attrs)];
            events := events w |}, Ok tt)
  end.

(** [get_tracer]; the default of [name] is [__name__]. *)
Definition get_tracer (name : string) : M Tracer := trace_get_tracer name.

(** ** Tracing set-up and instrumentation *)

Section Model.

(** The outcome of each call into the tracing packages: [None] when the
    call returns, [Some e] when it raises [e].  No call is made twice in one
    run of [setup_tracing] or of [instrument_libraries], so a function of
    the call covers every behaviour of the packages in a run.  The logger
    and [trace.get_tracer] do not raise. *)
Variable sdk : sdk_call -> option exn.

(** A call into the tracing packages. *)
Definition call (c : sdk_call) : M unit :=
  match sdk c with
  | None => emit (Call c None)
  | Some e => emit (Call c (Some e)) ;; raise e
  end.

(** Modelled from the spec: the effect of [trace.set_tracer_provider], which
    is not part of the sources.  Section 4.2: the provider is registered as
    the process-wide tracer source, and later calls to the tracer accessor
    observe it. *)
Definition trace_set_tracer_provider (tp : TracerProvider) : M unit :=
  call (set_tracer_provider tp) ;;
  fun w =>
    ({| environ := environ w; _otel_config := _otel_config w;
        tracer_provider := Some tp;
        global_textmap := global_textmap w;
        finished_spans := finished_spans w; events := events w |}, Ok tt).

(** [tracer_provider.add_span_processor(p)]: the local variable and the
    registered provider are the same object from line 88 on. *)
Definition provider_add_span_processor (p : SpanProcessor) : M unit :=
  call (add_span_processor p) ;;
  fun w =>
    ({| environ := environ w; _otel_config := _otel_config w;
        tracer_provider := add_processor p <$> tracer_provider w;
        global_textmap := global_textmap w;
        finished_spans := finished_spans w; events := events w |}, Ok tt).

(** [set_global_textmap(p)] *)
Definition propagate_set_global_textmap (p : TextMapPropagator) : M unit :=
  call (set_global_textmap p) ;;
  fun w =>
    ({| environ := environ w; _otel_config := _otel_config w;
        tracer_provider := tracer_provider w;
        global_textmap := Some p;
        finished_spans := finished_spans w; events := events w |}, Ok tt).

(** Lines 90 to 111 of [setup_tracing]: the exporters, in the order they
    are appended to the local list [exporters]. *)
Definition configure_exporters (self : OpenTelemetryConfig) :
    M (list SpanExporter) :=
  let exporters : list SpanExporter := [] in
  exporters <-
    match jaeger_endpoint self with
    | Some ep =>
        if Py.truthy ep then
          agent_host_name <-
            (if Py.contains ":" ep then index (Py.split ":" ep) 0
             else ret ep) ;;
          agent_port <-
            (if Py.contains ":" ep
             then (p <- index (Py.split ":" ep) 1 ;; int p)
             else ret 14268) ;;
          let jaeger_exporter := JaegerExporter agent_host_name agent_port in
          call (SpanExporter_new jaeger_exporter) ;;
          logger_info "Configured Jaeger exporter: %s" [ArgStr ep] ;;
          ret (exporters ++ [jaeger_exporter])
        else ret exporters
    | None => ret exporters
    end ;;
  exporters <-
    match otlp_endpoint self with
    | Some ep =>
        if Py.truthy ep then
          let otlp_exporter := OTLPSpanExporter ep in
          call (SpanExporter_new otlp_exporter) ;;
          logger_info "Configured OTLP exporter: %s" [ArgStr ep] ;;
          ret (exporters ++ [otlp_exporter])
        else ret exporters
    | None => ret exporters
    end ;;
  exporters <-
    (if console_exporter self then
       call (SpanExporter_new ConsoleSpanExporter) ;;
       logger_info "Configured console exporter" [] ;;
       ret (exporters ++ [ConsoleSpanExporter])
     else ret exporters) ;;
  ret exporters.

(** [OpenTelemetryConfig.setup_tracing] *)
Definition setup_tracing (self : OpenTelemetryConfig) : M (option Tracer) :=
  if negb (otel_enabled self) then
    logger_info "OpenTelemetry is disabled" [] ;;
    ret None
  else
    let attrs := resource_attributes self in
    call (Resource_create attrs) ;;
    let resource := {| attributes := attrs |} in
    call (TracerProvider_new resource) ;;
    let tracer_provider := {| resource := resource; span_processors := [] |} in
    trace_set_tracer_provider tracer_provider ;;
    exporters <- configure_exporters self ;;
    (match exporters with
     | [] => logger_warning "No OpenTelemetry exporters configured" []
     | _ => ret tt
     end) ;;
    for_each exporters (fun exporter =>
      let span_processor := BatchSpanProcessor exporter in
      call (SpanProcessor_new span_processor) ;;
      provider_add_span_processor span_processor) ;;
    call (Propagator_new TraceContextPropagator) ;;
    call (Propagator_new B3MultiFormat) ;;
    call (Propagator_new JaegerPropagator) ;;
    let propagators :=
      [TraceContextPropagator; B3MultiFormat; JaegerPropagator] in
    call (Propagator_new (CompositeHTTPPropagator propagators)) ;;
    propagate_set_global_textmap (CompositeHTTPPropagator propagators) ;;
    tracer <- trace_get_tracer __name__ ;;
    logger_info "OpenTelemetry tracing initialized for service: %s"
      [ArgStr (service_name self)] ;;
    ret (Some tracer).

(** [except Exception]: every exception of the model is an instance of
    [Exception]. *)
Definition is_Exception (e : exn) : bool := true.

(** [OpenTelemetryConfig.instrument_libraries] *)
Definition instrument_libraries (self : OpenTelemetryConfig) : M unit :=
  if negb (otel_enabled self) then ret tt
  else
    try_except
      (if instrument_flask self then
         call (Instrumentor_new Flask) ;;
         call (instrument Flask) ;;
         logger_info "Flask instrumentation enabled" []
       else ret tt)
      is_Exception
      (fun e => logger_warning "Failed to instrument Flask: %s" [ArgExn e]) ;;
    try_except
      (if instrument_sqlalchemy self then
         call (Instrumentor_new SQLAlchemy) ;;
         call (instrument SQLAlchemy) ;;
         logger_info "SQLAlchemy instrumentation enabled" []
       else ret tt)
      is_Exception
      (fun e =>
         logger_warning "Failed to instrument SQLAlchemy: %s" [ArgExn e]) ;;
    try_except
      (if instrument_kafka self then
         call (Instrumentor_new Kafka) ;;
         call (instrument Kafka) ;;
         logger_info "Kafka instrumentation enabled" []
       else ret tt)
      is_Exception
      (fun e => logger_warning "Failed to instrument Kafka: %s" [ArgExn e]) ;;
    try_except
      (if instrument_psycopg2 self then
         call (Instrumentor_new Psycopg2) ;;
         call (instrument Psycopg2) ;;
         logger_info "Psycopg2 instrumentation enabled" []
       else ret tt)
      is_Exception
      (fun e =>
         logger_warning "Failed to instrument Psycopg2: %s" [ArgExn e]).

(** [setup_opentelemetry] *)
Definition setup_opentelemetry : M (option Tracer) :=
  config <- get_otel_config ;;
  tracer <- setup_tracing config ;;
  instrument_libraries config ;;
  ret tracer.

End Model.

(** ** Vocabulary of the statements *)

(** The world [w] after the events [l] happened and nothing else changed. *)
Definition add_events (l : list event) (w : World) : World :=
  {| environ := environ w; _otel_config := _otel_config w;
     tracer_provider := tracer_provider w;
     global_textmap := global_textmap w;
     finished_spans := finished_spans w;
     events := events w ++ l |}.

(** The events of [w'] that are not already in [w]. *)
Definition new_events (w w' : World) : list event :=
  drop (length (events w)) (events w').

(** The entry [e] of the attribute string reads [k=v]: after stripping, [k]
    is what stands before the first [=] and [v] all that follows it, other
    [=] included. *)
Definition entry_is (e : string) (kv : string * string) : Prop :=
  Py.strip e = String.append kv.1 (String "=" kv.2)
  ∧ Py.contains "=" kv.1 = false.

(** The dictionary after the assignments [attributes[k] = v] for the pairs
    of [kvs], in order. *)
Definition assign_all (kvs : list (string * string))
    (m : gmap string string) : gmap string string :=
  fold_left (fun m kv => <[kv.1 := kv.2]> m) kvs m.

(** The flag of a library in the configuration. *)
Definition instrument_flag (self : OpenTelemetryConfig) (l : library) : bool :=
  match l with
  | Flask => instrument_flask self
  | SQLAlchemy => instrument_sqlalchemy self
  | Kafka => instrument_kafka self
  | Psycopg2 => instrument_psycopg2 self
  end.

(** The exception that activating the library raises, if it raises: from
    the constructor of the instrumentor, or else from [instrument()]. *)
Definition activation_error (sdk : sdk_call -> option exn) (l : library) :
    option exn :=
  match sdk (Instrumentor_new l) with
  | Some e => Some e
  | None => sdk (instrument l)
  end.

(** The text of the warning for a library. *)
Definition failed_to_instrument (l : library) : string :=
  String.append "Failed to instrument " (String.append (library_name l) ": %s").

(** The events of one guarded activation (one [try] block of
    [instrument_libraries]). *)
Definition guarded_events (sdk : sdk_call -> option exn) (flag : bool)
    (l : library) : list event :=
  if flag then
    match sdk (Instrumentor_new l) with
    | Some e =>
        [Call (Instrumentor_new l) (Some e);
         Log WARNING (failed_to_instrument l) [ArgExn e]]
    | None =>
        Call (Instrumentor_new l) None ::
        match sdk (instrument l) with
        | Some e =>
            [Call (instrument l) (Some e);
             Log WARNING (failed_to_instrument l) [ArgExn e]]
        | None =>
            [Call (instrument l) None;
             Log INFO (String.append (library_name l) " instrumentation enabled") []]
        end
    end
  else [].

(** An exporter is attached: a span processor is made for it or added to
    the provider. *)
Definition is_attach (ev : event) : bool :=
  match ev with
  | Call (SpanProcessor_new _) _ | Call (add_span_processor _) _ => true
  | _ => false
  end.

(** A propagator is installed. *)
Definition is_set_textmap (ev : event) : bool :=
  match ev with
  | Call (set_global_textmap _) _ => true
  | _ => false
  end.

(** A call into the tracing packages. *)
Definition is_call (ev : event) : bool :=
  match ev with Call _ _ => true | _ => false end.

(** The construction of the exporter [x]. *)
Definition is_construction_of (x : SpanExporter) (ev : event) : bool :=
  match ev with
  | Call (SpanExporter_new y) _ =>
      match x, y with
      | ConsoleSpanExporter, ConsoleSpanExporter => true
      | OTLPSpanExporter a, OTLPSpanExporter b => String.eqb a b
      | JaegerExporter a p, JaegerExporter b q => String.eqb a b && (p =? q)
      | _, _ => false
      end
  | _ => false
  end.

(** The propagator of lines 122 to 127. *)
Definition composite_propagator : TextMapPropagator :=
  CompositeHTTPPropagator
    [TraceContextPropagator; B3MultiFormat; JaegerPropagator].

(** The world after lines 77 to 88 went through: the resource and the
    provider are made and the provider is registered. *)
Definition provider_registered (self : OpenTelemetryConfig) (w : World) :
    World :=
  let r := {| attributes := resource_attributes self |} in
  let tp := {| resource := r; span_processors := [] |} in
  let w' :=
    add_events [Call (Resource_create (resource_attributes self)) None;
                Call (TracerProvider_new r) None;
                Call (set_tracer_provider tp) None] w in
  {| environ := environ w'; _otel_config := _otel_config w';
     tracer_provider := Some tp;
     global_textmap := global_textmap w';
     finished_spans := finished_spans w'; events := events w' |}.

(** The environment reads of [__init__] up to the sample rate. *)
Definition reads_before_rate : list event :=
  [Getenv "OTEL_SERVICE_NAME"; Getenv "OTEL_SERVICE_VERSION";
   Getenv "OTEL_ENVIRONMENT"; Getenv "OTEL_ENABLED";
   Getenv "OTEL_JAEGER_ENDPOINT"; Getenv "OTEL_OTLP_ENDPOINT";
   Getenv "OTEL_CONSOLE_EXPORTER"; Getenv "OTEL_TRACE_SAMPLE_RATE"].

(** The computation [m] only appends events to the world's list, and every
    event it appends satisfies [P]. *)
Definition emits {A} (P : event -> Prop) (m : M A) : Prop :=
  forall w, exists l, events (m w).1 = events w ++ l /\ Forall P l.

(** The computation [m] leaves the component [f] of the world as it is. *)
Definition keeps {A X} (f : World -> X) (m : M A) : Prop :=
  forall w, f (m w).1 = f w.

(** No call recorded in [l] raised. *)
Definition all_returned (l : list event) : Prop :=
  Forall (fun ev => forall c e, ev <> Call c (Some e)) l.

(** The computation [m] stops at the first call that raises: when it
    returns, no call it made raised; when it raises [e], either no call it
    made raised (the exception comes from a builtin) or the last thing it
    did is the call that raised [e]. *)
Definition stops_at_failure {A} (m : M A) : Prop :=
  forall w, exists l,
    events (m w).1 = events w ++ l
    /\ match (m w).2 with
       | Ok _ => all_returned l
       | Raise e =>
           exists l0, all_returned l0
                      /\ (l = l0 \/ exists c, l = l0 ++ [Call c (Some e)])
       end.

(** The settings read by [__init__], in the order they are read. *)
Definition settings : list string :=
  ["OTEL_SERVICE_NAME"; "OTEL_SERVICE_VERSION"; "OTEL_ENVIRONMENT";
   "OTEL_ENABLED"; "OTEL_JAEGER_ENDPOINT"; "OTEL_OTLP_ENDPOINT";
   "OTEL_CONSOLE_EXPORTER"; "OTEL_TRACE_SAMPLE_RATE";
   "OTEL_INSTRUMENT_FLASK"; "OTEL_INSTRUMENT_SQLALCHEMY";
   "OTEL_INSTRUMENT_KAFKA"; "OTEL_INSTRUMENT_PSYCOPG2";
   "OTEL_CUSTOM_ATTRIBUTES"].

(** The names of the settings read, among the events [l]. *)
Definition env_reads (l : list event) : list string :=
  omap (fun ev => match ev with Getenv n => Some n | _ => None end) l.


(** ** Sample inputs *)

(** The environment reads of [__init__] after the sample rate, up to the
    custom attributes. *)
Definition reads_of_flags : list event :=
  [Getenv "OTEL_INSTRUMENT_FLASK"; Getenv "OTEL_INSTRUMENT_SQLALCHEMY";
   Getenv "OTEL_INSTRUMENT_KAFKA"; Getenv "OTEL_INSTRUMENT_PSYCOPG2"].

(** A process environment whose attribute string has a malformed second
    entry. *)
Definition env_partial : gmap string string :=
  {["OTEL_CUSTOM_ATTRIBUTES" := "a=1,b"]}.

(** A process environment with a repeated key and a value holding [=]. *)
Definition env_repeated : gmap string string :=
  {["OTEL_CUSTOM_ATTRIBUTES" := "a=1=2, b = x ,a=3"]}.

(** A process environment whose sample rate is not a number. *)
Definition env_bad_rate : gmap string string :=
  {["OTEL_TRACE_SAMPLE_RATE" := "ten percent"]}.

(** No call into the tracing packages raises. *)
Definition sdk_ok : sdk_call -> option exn := fun _ => None.

(** Flask cannot be instrumented; every other call returns. *)
Definition sdk_no_flask : sdk_call -> option exn :=
  fun c =>
    match c with
    | instrument Flask => Some (Exception_ "ImportError" "No module named flask")
    | _ => None
    end.

(** An enabled configuration with a Jaeger endpoint and the other two
    exporters. *)
Definition sample_config : OpenTelemetryConfig :=
  {| service_name := "insights-host-inventory";
     service_version := "1.0.0";
     environment := "development";
     otel_enabled := true;
     jaeger_endpoint := Some "jaeger-collector:14268";
     otlp_endpoint := Some "http://collector:4317";
     console_exporter := true;
     trace_sample_rate := Py.FDec false 1 (-1);
     instrument_flask := true;
     instrument_sqlalchemy := true;
     instrument_kafka := false;
     instrument_psycopg2 := true;
     custom_attributes := {["team" := "inventory"]} |}.

(** The scenario of section 8: a Jaeger endpoint whose port is not a number,
    and the console exporter. *)
Definition bad_port_config : OpenTelemetryConfig :=
  {| service_name := "insights-host-inventory";
     service_version := "1.0.0";
     environment := "development";
     otel_enabled := true;
     jaeger_endpoint := Some "bad:not-a-port";
     otlp_endpoint := None;
     console_exporter := true;
     trace_sample_rate := Py.FDec false 1 (-1);
     instrument_flask := true;
     instrument_sqlalchemy := true;
     instrument_kafka := true;
     instrument_psycopg2 := true;
     custom_attributes := ∅ |}.

(** A custom attribute with the key of a fixed field. *)
Definition colliding_config : OpenTelemetryConfig :=
  {| service_name := "insights-host-inventory";
     service_version := "1.0.0";
     environment := "development";
     otel_enabled := true;
     jaeger_endpoint := None;
     otlp_endpoint := None;
     console_exporter := true;
     trace_sample_rate := Py.FDec false 1 (-1);
     instrument_flask := true;
     instrument_sqlalchemy := true;
     instrument_kafka := true;
     instrument_psycopg2 := true;
     custom_attributes := {["service.name" := "other-service"]} |}.

(** A disabled configuration. *)
Definition disabled_config : OpenTelemetryConfig :=
  {| service_name := "insights-host-inventory";
     service_version := "1.0.0";
     environment := "development";
     otel_enabled := false;
     jaeger_endpoint := Some "jaeger-collector:14268";
     otlp_endpoint := None;
     console_exporter := true;
     trace_sample_rate := Py.FDec false 1 (-1);
     instrument_flask := true;
     instrument_sqlalchemy := true;
     instrument_kafka := true;
     instrument_psycopg2 := true;
     custom_attributes := ∅ |}.


(** ** Vocabulary of the further properties *)

(** The configuration of a process whose environment sets none of the
    settings: the defaults of lines 35 to 55. *)
Definition default_config : OpenTelemetryConfig :=
  {| service_name := "insights-host-inventory";
     service_version := "1.0.0";
     environment := "development";
     otel_enabled := false;
     jaeger_endpoint := None;
     otlp_endpoint := None;
     console_exporter := false;
     trace_sample_rate := Py.FDec false 1 (-1);
     instrument_flask := true;
     instrument_sqlalchemy := true;
     instrument_kafka := true;
     instrument_psycopg2 := true;
     custom_attributes := ∅ |}.

(** The string [v] is [true] in some mix of upper and lower case. *)
Definition spells_true (v : string) : Prop :=
  exists a b c d : ascii,
    v = String a (String b (String c (String d EmptyString)))
    /\ (a = "t" \/ a = "T")%char /\ (b = "r" \/ b = "R")%char
    /\ (c = "u" \/ c = "U")%char /\ (d = "e" \/ d = "E")%char.

(** The value of a flag whose setting is [o] and whose default is
    [dflt]. *)
Definition flag_value (dflt : string) (o : option string) : bool :=
  String.eqb (Py.lower (default dflt o)) "true".

(** The configuration that [__init__] builds in the environment [env], where
    [x] is the value of the sample rate and [m] the parsed attributes. *)
Definition config_of_environ (env : gmap string string) (x : Py.float_value)
    (m : gmap string string) : OpenTelemetryConfig :=
  {| service_name :=
       default "insights-host-inventory" (env !! "OTEL_SERVICE_NAME");
     service_version := default "1.0.0" (env !! "OTEL_SERVICE_VERSION");
     environment := default "development" (env !! "OTEL_ENVIRONMENT");
     otel_enabled := flag_value "false" (env !! "OTEL_ENABLED");
     jaeger_endpoint := env !! "OTEL_JAEGER_ENDPOINT";
     otlp_endpoint := env !! "OTEL_OTLP_ENDPOINT";
     console_exporter := flag_value "false" (env !! "OTEL_CONSOLE_EXPORTER");
     trace_sample_rate := x;
     instrument_flask := flag_value "true" (env !! "OTEL_INSTRUMENT_FLASK");
     instrument_sqlalchemy :=
       flag_value "true" (env !! "OTEL_INSTRUMENT_SQLALCHEMY");
     instrument_kafka := flag_value "true" (env !! "OTEL_INSTRUMENT_KAFKA");
     instrument_psycopg2 :=
       flag_value "true" (env !! "OTEL_INSTRUMENT_PSYCOPG2");
     custom_attributes := m |}.

(** The dictionary of lines 16 to 24 of the integration script. *)
Definition smoke_test_settings : gmap string string :=
  <["OTEL_ENABLED" := "true"]>
    (<["OTEL_SERVICE_NAME" := "insights-host-inventory-test"]>
       (<["OTEL_CONSOLE_EXPORTER" := "true"]>
          (<["OTEL_TRACE_SAMPLE_RATE" := "1.0"]>
             (<["BYPASS_RBAC" := "true"]>
                (<["BYPASS_TENANT_TRANSLATION" := "true"]>
                   (<["BYPASS_UNLEASH" := "true"]> ∅)))))).

(** [os.environ.update(d)]: the entries of [d] are written over the
    environment. *)
Definition os_environ_update (d : gmap string string) (w : World) : World :=
  set_environ (d ∪ environ w) w.

(** The attribute string of the pairs [kvs]: the entries [k=v], separated
    by commas. *)
Fixpoint join_attributes (kvs : list (string * string)) : string :=
  match kvs with
  | [] => EmptyString
  | [(k, v)] => String.append k (String "=" v)
  | (k, v) :: rest =>
      String.append k (String "=" (String.append v (String "," (join_attributes rest))))
  end.

(** A pair that can be written as an entry and read back: no comma in it,
    no [=] in the key, and no white space at either end of the entry. *)
Definition plain_pair (kv : string * string) : Prop :=
  Py.contains "," kv.1 = false /\ Py.contains "," kv.2 = false
  /\ Py.contains "=" kv.1 = false
  /\ Py.strip (String.append kv.1 (String "=" kv.2))
     = String.append kv.1 (String "=" kv.2).


(** The events of lines 117 to 119: for each exporter, in order, its batch
    processor is made and added to the provider. *)
Definition attach_events (exporters : list SpanExporter) : list event :=
  flat_map (fun e =>
              [Call (SpanProcessor_new (BatchSpanProcessor e)) None;
               Call (add_span_processor (BatchSpanProcessor e)) None])
    exporters.

(** The warning of lines 113 and 114. *)
Definition no_exporter_warning (exporters : list SpanExporter) : list event :=
  match exporters with
  | [] => [Log WARNING "No OpenTelemetry exporters configured" []]
  | _ => []
  end.

(** The events of lines 121 to 131. *)
Definition propagator_events (self : OpenTelemetryConfig) : list event :=
  [Call (Propagator_new TraceContextPropagator) None;
   Call (Propagator_new B3MultiFormat) None;
   Call (Propagator_new JaegerPropagator) None;
   Call (Propagator_new composite_propagator) None;
   Call (set_global_textmap composite_propagator) None;
   Log INFO "OpenTelemetry tracing initialized for service: %s"
     [ArgStr (service_name self)]].


(** A read of the environment. *)
Definition is_getenv (ev : event) : bool :=
  match ev with Getenv _ => true | _ => false end.

(** A call to an instrumentor. *)
Definition is_instrumentation (ev : event) : bool :=
  match ev with
  | Call (Instrumentor_new _) _ | Call (instrument _) _ => true
  | _ => false
  end.




(** The calls into the tracing packages that [setup_tracing] makes for the
    exporters [exporters] once they are constructed: none of them raises. *)
Definition rest_returns (sdk : sdk_call -> option exn)
    (exporters : list SpanExporter) : Prop :=
  (forall e, e ∈ exporters ->
     sdk (SpanProcessor_new (BatchSpanProcessor e)) = None
     /\ sdk (add_span_processor (BatchSpanProcessor e)) = None)
  /\ sdk (Propagator_new TraceContextPropagator) = None
  /\ sdk (Propagator_new B3MultiFormat) = None
  /\ sdk (Propagator_new JaegerPropagator) = None
  /\ sdk (Propagator_new composite_propagator) = None
  /\ sdk (set_global_textmap composite_propagator) = None.

(** The three calls of lines 77 to 88 return. *)
Definition registration_returns (sdk : sdk_call -> option exn)
    (self : OpenTelemetryConfig) : Prop :=
  sdk (Resource_create (resource_attributes self)) = None
  /\ sdk (TracerProvider_new {| attributes := resource_attributes self |})
     = None
  /\ sdk (set_tracer_provider
            {| resource := {| attributes := resource_attributes self |};
               span_processors := [] |}) = None.

(** ** Further sample inputs *)

(** A process environment that spells the switch in upper case. *)
Definition env_upper_case : gmap string string :=
  {["OTEL_ENABLED" := "TRUE"]}.

(** An enabled configuration with no exporter at all. *)
Definition no_exporter_config : OpenTelemetryConfig :=
  {| service_name := "insights-host-inventory";
     service_version := "1.0.0";
     environment := "development";
     otel_enabled := true;
     jaeger_endpoint := Some "";
     otlp_endpoint := None;
     console_exporter := false;
     trace_sample_rate := Py.FDec false 1 (-1);
     instrument_flask := true;
     instrument_sqlalchemy := false;
     instrument_kafka := true;
     instrument_psycopg2 := false;
     custom_attributes := ∅ |}.

(** An enabled configuration whose Jaeger endpoint names no port. *)
Definition host_only_config : OpenTelemetryConfig :=
  {| service_name := "insights-host-inventory";
     service_version := "1.0.0";
     environment := "development";
     otel_enabled := true;
     jaeger_endpoint := Some "jaeger-agent";
     otlp_endpoint := None;
     console_exporter := false;
     trace_sample_rate := Py.FDec false 1 (-1);
     instrument_flask := true;
     instrument_sqlalchemy := true;
     instrument_kafka := true;
     instrument_psycopg2 := true;
     custom_attributes := ∅ |}.

(** An enabled configuration whose Jaeger endpoint is written as a URL. *)
Definition url_endpoint_config : OpenTelemetryConfig :=
  {| service_name := "insights-host-inventory";
     service_version := "1.0.0";
     environment := "development";
     otel_enabled := true;
     jaeger_endpoint := Some "http://jaeger-collector:14268";
     otlp_endpoint := None;
     console_exporter := true;
     trace_sample_rate := Py.FDec false 1 (-1);
     instrument_flask := true;
     instrument_sqlalchemy := true;
     instrument_kafka := true;
     instrument_psycopg2 := true;
     custom_attributes := ∅ |}.


(** A process environment that enables tracing with a Jaeger endpoint whose
    port is not a number. *)
Definition env_bad_port : gmap string string :=
  <["OTEL_ENABLED" := "true"]> {["OTEL_JAEGER_ENDPOINT" := "bad:not-a-port"]}.

(** A process environment with two custom attributes. *)
Definition env_two_attributes : gmap string string :=
  {["OTEL_CUSTOM_ATTRIBUTES" := "team=inventory,query=a=b"]}.

(** * Properties *)

(** ** Running computations *)

Lemma add_events_nil w : add_events [] w = w.
Proof. destruct w; unfold add_events; simpl. by rewrite app_nil_r. Qed.

Lemma add_events_app l1 l2 w :
  add_events l2 (add_events l1 w) = add_events (l1 ++ l2) w.
Proof. unfold add_events; simpl. by rewrite app_assoc. Qed.

Lemma new_events_add l w : new_events w (add_events l w) = l.
Proof. unfold new_events; simpl. by rewrite drop_app_length. Qed.

Lemma bind_ok {A B} (m : M A) (k : A -> M B) w w' a :
  m w = (w', Ok a) -> bind m k w = k a w'.
Proof. intros H. unfold bind. by rewrite H. Qed.

Lemma bind_raise {A B} (m : M A) (k : A -> M B) w w' e :
  m w = (w', Raise e) -> bind m k w = (w', Raise e).
Proof. intros H. unfold bind. by rewrite H. Qed.

Lemma bind_inv_ok {A B} (m : M A) (k : A -> M B) w w' b :
  bind m k w = (w', Ok b) ->
  exists w1 a, m w = (w1, Ok a) /\ k a w1 = (w', Ok b).
Proof.
  unfold bind. destruct (m w) as [w1 [a|e]]; intros H.
  - by exists w1, a.
  - discriminate.
Qed.

Lemma emit_run ev w : emit ev w = (add_events [ev] w, Ok tt).
Proof. reflexivity. Qed.

Lemma bind_emit {B} ev (k : unit -> M B) w :
  bind (emit ev) k w = k tt (add_events [ev] w).
Proof. reflexivity. Qed.

Lemma os_getenv_run name w :
  os_getenv name w = (add_events [Getenv name] w, Ok (environ w !! name)).
Proof. reflexivity. Qed.

Lemma bind_getenv {B} name (k : option string -> M B) w :
  bind (os_getenv name) k w
  = k (environ w !! name) (add_events [Getenv name] w).
Proof. reflexivity. Qed.

Lemma bind_getenv_default {B} name d (k : string -> M B) w :
  bind (os_getenv_default name d) k w
  = k (default d (environ w !! name)) (add_events [Getenv name] w).
Proof. reflexivity. Qed.

Lemma init_bad_rate w s :
  environ w !! "OTEL_TRACE_SAMPLE_RATE" = Some s ->
  Py.float s = None ->
  __init__ w
  = (add_events reads_before_rate w, Raise (ValueError (BadFloatLiteral s))).
Proof.
  intros Hs Hf. unfold __init__.
  do 4 (rewrite bind_getenv_default; cbv beta).
  do 2 (rewrite bind_getenv; cbv beta).
  do 2 (rewrite bind_getenv_default; cbv beta).
  rewrite !add_events_app. simpl environ. rewrite Hs. simpl default.
  unfold float. rewrite Hf. reflexivity.
Qed.

(** ** Strings *)

Lemma split1_found c k v :
  Py.contains c k = false ->
  Py.split1 c (String.append k (String c v)) = [k; v].
Proof.
  induction k as [|a k IH]; simpl; intros H.
  - by rewrite Ascii.eqb_refl.
  - apply orb_false_iff in H as [Ha Hk].
    rewrite Ha, (IH Hk). reflexivity.
Qed.

Lemma split1_none c s :
  Py.contains c s = false -> Py.split1 c s = [s].
Proof.
  induction s as [|a s IH]; simpl; intros H; [done|].
  apply orb_false_iff in H as [Ha Hs].
  rewrite Ha, (IH Hs). reflexivity.
Qed.

Lemma contains_lstrip c s :
  Py.contains c s = false -> Py.contains c (Py.lstrip s) = false.
Proof.
  induction s as [|a s IH]; simpl; intros H; [done|].
  apply orb_false_iff in H as [Ha Hs].
  destruct (Py.isspace a); [by apply IH|].
  simpl. by rewrite Ha, Hs.
Qed.

Lemma contains_rstrip c s :
  Py.contains c s = false -> Py.contains c (Py.rstrip s) = false.
Proof.
  induction s as [|a s IH]; simpl; intros H; [done|].
  apply orb_false_iff in H as [Ha Hs].
  specialize (IH Hs).
  destruct (Py.rstrip s) as [|b r].
  - destruct (Py.isspace a); simpl; [done|]. by rewrite Ha.
  - simpl in *. by rewrite Ha, IH.
Qed.

Lemma contains_strip c s :
  Py.contains c s = false -> Py.contains c (Py.strip s) = false.
Proof. intros H. unfold Py.strip. by apply contains_rstrip, contains_lstrip. Qed.

(** ** The loop over the entries *)

Lemma unpack_entry e kv :
  entry_is e kv -> unpack2 (Py.split1 "=" (Py.strip e)) = Ok kv.
Proof.
  intros [He Hk]. rewrite He, (split1_found _ _ _ Hk). by destruct kv.
Qed.

Lemma unpack_malformed e :
  Py.contains "=" e = false ->
  unpack2 (Py.split1 "=" (Py.strip e)) = Raise (ValueError (NotEnoughValues 2 1)).
Proof.
  intros H. by rewrite (split1_none _ _ (contains_strip _ _ H)).
Qed.

Lemma parse_loop_ok es kvs :
  Forall2 entry_is es kvs ->
  forall m, parse_loop m es = (assign_all kvs m, Ok tt).
Proof.
  induction 1 as [|e kv es kvs He _ IH]; intros m; simpl; [done|].
  rewrite (unpack_entry _ _ He). destruct kv as [k v]. apply IH.
Qed.

Lemma parse_loop_malformed pre kvs bad post :
  Forall2 entry_is pre kvs ->
  Py.contains "=" bad = false ->
  forall m,
    parse_loop m (pre ++ bad :: post)
    = (assign_all kvs m, Raise (ValueError (NotEnoughValues 2 1))).
Proof.
  intros Hpre Hbad. induction Hpre as [|e kv es kvs He _ IH]; intros m; simpl.
  - by rewrite (unpack_malformed _ Hbad).
  - rewrite (unpack_entry _ _ He). destruct kv as [k v]. apply IH.
Qed.

Lemma assign_all_app l1 l2 m :
  assign_all (l1 ++ l2) m = assign_all l2 (assign_all l1 m).
Proof. unfold assign_all. apply fold_left_app. Qed.

Lemma assign_all_other (l : list (string * string)) k :
  k ∉ l.*1 -> forall m : gmap string string, assign_all l m !! k = m !! k.
Proof.
  induction l as [|[k' v'] l IH]; intros Hk m; simpl; [done|].
  apply not_elem_of_cons in Hk as [Hne Hk]. simpl in Hne.
  rewrite (IH Hk). by rewrite lookup_insert_ne.
Qed.

Lemma assign_all_last (l1 l2 : list (string * string)) k v
    (m : gmap string string) :
  k ∉ l2.*1 -> assign_all (l1 ++ (k, v) :: l2) m !! k = Some v.
Proof.
  intros Hk. rewrite assign_all_app. simpl.
  rewrite (assign_all_other _ _ Hk). apply lookup_insert_eq.
Qed.

Lemma assign_all_keys (l : list (string * string)) k :
  forall m : gmap string string,
    is_Some (assign_all l m !! k) -> k ∈ l.*1 \/ is_Some (m !! k).
Proof.
  induction l as [|[k' v'] l IH]; intros m H; simpl in *; [by right|].
  destruct (IH _ H) as [Hin|Hm].
  - left. by apply elem_of_cons; right.
  - destruct (decide (k' = k)) as [->|Hne].
    + left. apply elem_of_cons; by left.
    + right. by rewrite lookup_insert_ne in Hm.
Qed.

Lemma split_nonempty_entry s kvs :
  Forall2 entry_is (Py.split "," s) kvs -> Py.truthy s = true.
Proof.
  destruct s; [|done]. simpl. intros H.
  apply Forall2_cons_inv_l in H as ([k v] & ? & [He _] & _ & _).
  simpl in He. by destruct k.
Qed.

Lemma parse_run_malformed w s pre bad post kvs :
  environ w !! "OTEL_CUSTOM_ATTRIBUTES" = Some s ->
  s <> "" ->
  Py.split "," s = pre ++ bad :: post ->
  Forall2 entry_is pre kvs ->
  Py.contains "=" bad = false ->
  _parse_custom_attributes w
  = (add_events
       [Getenv "OTEL_CUSTOM_ATTRIBUTES";
        Log WARNING "Failed to parse OTEL_CUSTOM_ATTRIBUTES: %s"
          [ArgExn (ValueError (NotEnoughValues 2 1))]] w,
     Ok (assign_all kvs ∅)).
Proof.
  intros Hs Hne Hsplit Hpre Hbad. unfold _parse_custom_attributes.
  rewrite bind_getenv_default, Hs. change (default "" (Some s)) with s.
  assert (Py.truthy s = true) as -> by (by destruct s).
  rewrite Hsplit, (parse_loop_malformed _ _ _ _ Hpre Hbad).
  change (is_ValueError (ValueError (NotEnoughValues 2 1))) with true.
  cbv beta iota. unfold logger_warning. rewrite bind_emit.
  unfold ret. by rewrite add_events_app.
Qed.

Lemma parse_run_ok w s kvs :
  environ w !! "OTEL_CUSTOM_ATTRIBUTES" = Some s ->
  Forall2 entry_is (Py.split "," s) kvs ->
  _parse_custom_attributes w
  = (add_events [Getenv "OTEL_CUSTOM_ATTRIBUTES"] w, Ok (assign_all kvs ∅)).
Proof.
  intros Hs Hes. unfold _parse_custom_attributes.
  rewrite bind_getenv_default, Hs. change (default "" (Some s)) with s.
  rewrite (split_nonempty_entry _ _ Hes), (parse_loop_ok _ _ Hes). reflexivity.
Qed.

(** ** Construction of the configuration *)

Lemma init_ok w x l m :
  Py.float (default "0.1" (environ w !! "OTEL_TRACE_SAMPLE_RATE")) = Some x ->
  (forall w', environ w' = environ w ->
     _parse_custom_attributes w' = (add_events l w', Ok m)) ->
  exists c,
    __init__ w = (add_events (reads_before_rate ++ reads_of_flags ++ l) w, Ok c)
    /\ trace_sample_rate c = x /\ custom_attributes c = m.
Proof.
  intros Hx Hparse. unfold __init__.
  do 4 (rewrite bind_getenv_default; cbv beta).
  do 2 (rewrite bind_getenv; cbv beta).
  do 2 (rewrite bind_getenv_default; cbv beta).
  rewrite !add_events_app. simpl environ. unfold float at 1. rewrite Hx.
  erewrite bind_ok by reflexivity.
  do 4 (rewrite bind_getenv_default; cbv beta).
  rewrite !add_events_app.
  erewrite bind_ok by (apply Hparse; reflexivity).
  rewrite !add_events_app. unfold ret. eexists. split.
  - reflexivity.
  - by split.
Qed.

(** C1 (amended).  When the attribute string is not empty and one of its
    entries has no [=], the parse stops at the first such entry: the
    attribute map holds exactly the entries read before it (it is empty
    when the first entry is the malformed one), one warning is logged, and
    the parse returns without raising, so that the construction of the
    configuration succeeds whenever the sample rate is a number. *)
Theorem parse_custom_attributes_stops_at_malformed w s pre bad post kvs :
  environ w !! "OTEL_CUSTOM_ATTRIBUTES" = Some s ->
  s <> "" ->
  Py.split "," s = pre ++ bad :: post ->
  Forall2 entry_is pre kvs ->
  Py.contains "=" bad = false ->
  _parse_custom_attributes w
  = (add_events
       [Getenv "OTEL_CUSTOM_ATTRIBUTES";
        Log WARNING "Failed to parse OTEL_CUSTOM_ATTRIBUTES: %s"
          [ArgExn (ValueError (NotEnoughValues 2 1))]] w,
     Ok (assign_all kvs ∅))
  /\ (pre = [] -> assign_all kvs ∅ = (∅ : gmap string string))
  /\ (forall x,
        Py.float (default "0.1" (environ w !! "OTEL_TRACE_SAMPLE_RATE"))
        = Some x ->
        exists w' c, __init__ w = (w', Ok c)
                     /\ custom_attributes c = assign_all kvs ∅).
Proof.
  intros Hs Hne Hsplit Hpre Hbad. split; [|split].
  - by apply parse_run_malformed with s pre bad post.
  - intros ->. by apply Forall2_nil_inv_l in Hpre as ->.
  - intros x Hx.
    edestruct (init_ok w x) as (c & Hc & _ & Hm); [exact Hx| |by eauto].
    intros w' Hw'. apply parse_run_malformed with s pre bad post; try done.
    by rewrite Hw'.
Qed.

(** C8.  When every entry of the attribute string reads [k=v], where [k]
    holds no [=] and [v] is anything, other [=] included, the parse returns
    the map of the assignments [k := v] in order, without a warning: a key
    is mapped to the value of its last entry, and only the keys of the
    entries are mapped. *)
Theorem parse_custom_attributes_first_eq_last_wins w s kvs :
  environ w !! "OTEL_CUSTOM_ATTRIBUTES" = Some s ->
  Forall2 entry_is (Py.split "," s) kvs ->
  exists m : gmap string string,
    _parse_custom_attributes w
    = (add_events [Getenv "OTEL_CUSTOM_ATTRIBUTES"] w, Ok m)
    /\ (forall l1 k v l2,
          kvs = l1 ++ (k, v) :: l2 -> k ∉ l2.*1 -> m !! k = Some v)
    /\ (forall k, is_Some (m !! k) -> k ∈ kvs.*1).
Proof.
  intros Hs Hes. exists (assign_all kvs ∅). split; [|split].
  - by apply parse_run_ok with s.
  - intros l1 k v l2 -> Hk. by apply assign_all_last.
  - intros k Hk. apply assign_all_keys in Hk as [Hk|Hk]; [done|].
    rewrite lookup_empty in Hk. by destruct Hk.
Qed.

(** C6.  When the sample rate is set to a string that [float] does not
    accept, the construction of the configuration raises [ValueError] while
    it reads the settings; so do, when no configuration is stored yet,
    [get_otel_config], which stores none, and [setup_opentelemetry]. *)
Theorem construction_raises_on_bad_sample_rate w s :
  environ w !! "OTEL_TRACE_SAMPLE_RATE" = Some s ->
  Py.float s = None ->
  __init__ w
  = (add_events reads_before_rate w, Raise (ValueError (BadFloatLiteral s)))
  /\ (_otel_config w = None ->
      get_otel_config w
      = (add_events reads_before_rate w,
         Raise (ValueError (BadFloatLiteral s)))
      /\ forall sdk,
           setup_opentelemetry sdk w
           = (add_events reads_before_rate w,
              Raise (ValueError (BadFloatLiteral s)))).
Proof.
  intros Hs Hf. split; [by apply init_bad_rate|]. intros Hnone.
  assert (get_otel_config w
          = (add_events reads_before_rate w,
             Raise (ValueError (BadFloatLiteral s)))) as Hget.
  { unfold get_otel_config. rewrite Hnone.
    by rewrite (bind_raise _ _ _ _ _ (init_bad_rate w s Hs Hf)). }
  split; [done|].
  intros sdk. unfold setup_opentelemetry. by rewrite (bind_raise _ _ _ _ _ Hget).
Qed.

(** C1, counterexample.  The attribute string [a=1,b] has the malformed
    entry [b], and the parse keeps the entry read before it: the attribute
    map is not empty. *)
Lemma malformed_entry_keeps_earlier_entries :
  environ (initial_world env_partial) !! "OTEL_CUSTOM_ATTRIBUTES"
  = Some "a=1,b"
  /\ Py.split "," "a=1,b" = ["a=1"; "b"]
  /\ Py.contains "=" "b" = false
  /\ (_parse_custom_attributes (initial_world env_partial)).2
     = Ok {["a" := "1"]}
  /\ ({["a" := "1"]} : gmap string string) <> ∅.
Proof.
  split; [reflexivity|]. split; [reflexivity|]. split; [reflexivity|].
  split; [by vm_compute|].
  intros H. apply (f_equal (fun m : gmap string string => m !! "a")) in H.
  by vm_compute in H.
Qed.

Lemma parse_custom_attributes_stops_at_malformed_witness :
  _parse_custom_attributes (initial_world env_partial)
  = (add_events
       [Getenv "OTEL_CUSTOM_ATTRIBUTES";
        Log WARNING "Failed to parse OTEL_CUSTOM_ATTRIBUTES: %s"
          [ArgExn (ValueError (NotEnoughValues 2 1))]]
       (initial_world env_partial),
     Ok (assign_all [("a", "1")] ∅)).
Proof.
  refine (proj1 (parse_custom_attributes_stops_at_malformed
                   (initial_world env_partial) "a=1,b" ["a=1"] "b" []
                   [("a", "1")] _ _ _ _ _)).
  - vm_compute; reflexivity.
  - discriminate.
  - reflexivity.
  - repeat constructor.
  - reflexivity.
Defined.

Lemma parse_custom_attributes_first_eq_last_wins_witness :
  exists m : gmap string string,
    (_parse_custom_attributes (initial_world env_repeated)).2 = Ok m
    /\ m !! "a" = Some "3" /\ m !! "b " = Some " x".
Proof.
  destruct (parse_custom_attributes_first_eq_last_wins
              (initial_world env_repeated) "a=1=2, b = x ,a=3"
              [("a", "1=2"); ("b ", " x"); ("a", "3")])
    as (m & Hrun & Hlast & _).
  - vm_compute; reflexivity.
  - repeat constructor.
  - exists m. split; [by rewrite Hrun|]. split.
    + apply (Hlast [("a", "1=2"); ("b ", " x")] "a" "3" []); [reflexivity|].
      apply not_elem_of_nil.
    + apply (Hlast [("a", "1=2")] "b " " x" [("a", "3")]); [reflexivity|].
      intros H. apply list_elem_of_singleton in H. discriminate.
Defined.

Lemma construction_raises_on_bad_sample_rate_witness :
  __init__ (initial_world env_bad_rate)
  = (add_events reads_before_rate (initial_world env_bad_rate),
     Raise (ValueError (BadFloatLiteral "ten percent"))).
Proof.
  refine (proj1 (construction_raises_on_bad_sample_rate
                   (initial_world env_bad_rate) "ten percent" _ _)).
  - vm_compute; reflexivity.
  - vm_compute; reflexivity.
Defined.

(** ** Set-up and instrumentation *)

Section Setup.

Variable sdk : sdk_call -> option exn.

Lemma call_run c w :
  call sdk c w
  = (add_events [Call c (sdk c)] w,
     match sdk c with None => Ok tt | Some e => Raise e end).
Proof. unfold call. by destruct (sdk c). Qed.

Lemma bind_call {B} c (k : unit -> M B) w :
  bind (call sdk c) k w
  = match sdk c with
    | None => k tt (add_events [Call c None] w)
    | Some e => (add_events [Call c (Some e)] w, Raise e)
    end.
Proof. unfold bind. rewrite call_run. by destruct (sdk c). Qed.

(** One guarded activation: whatever the instrumentor does, the block
    returns. *)
Lemma guarded_block (flag : bool) l w :
  try_except
    (if flag then
       call sdk (Instrumentor_new l) ;;
       call sdk (instrument l) ;;
       logger_info (String.append (library_name l) " instrumentation enabled") []
     else ret tt)
    is_Exception
    (fun e => logger_warning (failed_to_instrument l) [ArgExn e]) w
  = (add_events (guarded_events sdk flag l) w, Ok tt).
Proof.
  unfold try_except, guarded_events. destruct flag.
  - rewrite bind_call.
    destruct (sdk (Instrumentor_new l)) as [e|].
    + unfold logger_warning. simpl is_Exception. cbv iota.
      rewrite emit_run, add_events_app. reflexivity.
    + rewrite bind_call. destruct (sdk (instrument l)) as [e|].
      * unfold logger_warning. simpl is_Exception. cbv iota.
        rewrite emit_run, !add_events_app. reflexivity.
      * unfold logger_info. rewrite emit_run, !add_events_app. reflexivity.
  - unfold ret. by rewrite add_events_nil.
Qed.

Lemma instrument_libraries_run cfg w :
  otel_enabled cfg = true ->
  instrument_libraries sdk cfg w
  = (add_events
       (guarded_events sdk (instrument_flask cfg) Flask
        ++ guarded_events sdk (instrument_sqlalchemy cfg) SQLAlchemy
        ++ guarded_events sdk (instrument_kafka cfg) Kafka
        ++ guarded_events sdk (instrument_psycopg2 cfg) Psycopg2) w,
     Ok tt).
Proof.
  intros Hen. unfold instrument_libraries. rewrite Hen. cbn [negb].
  erewrite bind_ok by apply (guarded_block (instrument_flask cfg) Flask).
  erewrite bind_ok by apply (guarded_block (instrument_sqlalchemy cfg) SQLAlchemy).
  erewrite bind_ok by apply (guarded_block (instrument_kafka cfg) Kafka).
  rewrite (guarded_block (instrument_psycopg2 cfg) Psycopg2).
  by rewrite !add_events_app, <- ?app_assoc.
Qed.

Lemma guarded_events_attempt l :
  Call (Instrumentor_new l) (sdk (Instrumentor_new l))
  ∈ guarded_events sdk true l
  /\ (sdk (Instrumentor_new l) = None ->
      Call (instrument l) (sdk (instrument l)) ∈ guarded_events sdk true l)
  /\ (forall e, activation_error sdk l = Some e ->
        Log WARNING (failed_to_instrument l) [ArgExn e]
        ∈ guarded_events sdk true l)
  /\ (activation_error sdk l = None ->
      Log INFO (String.append (library_name l) " instrumentation enabled") []
      ∈ guarded_events sdk true l).
Proof.
  unfold guarded_events, activation_error.
  destruct (sdk (Instrumentor_new l)) as [e1|];
    [|destruct (sdk (instrument l)) as [e2|]];
    repeat split; intros; simplify_eq; set_solver.
Qed.

Lemma guarded_events_calls (f : bool) l c o :
  Call c o ∈ guarded_events sdk f l ->
  f = true /\ (c = Instrumentor_new l \/ c = instrument l).
Proof.
  unfold guarded_events. destruct f; [|by intros ?%elem_of_nil].
  destruct (sdk (Instrumentor_new l)); [|destruct (sdk (instrument l))];
    intros H;
    repeat (apply elem_of_cons in H as [H|H]; [simplify_eq; by auto|]);
    by apply elem_of_nil in H.
Qed.

Lemma setup_tracing_disabled cfg w :
  otel_enabled cfg = false ->
  setup_tracing sdk cfg w
  = (add_events [Log INFO "OpenTelemetry is disabled" []] w, Ok None).
Proof. intros Hdis. unfold setup_tracing. by rewrite Hdis. Qed.

Lemma instrument_libraries_disabled cfg :
  otel_enabled cfg = false ->
  forall w, instrument_libraries sdk cfg w = (w, Ok tt).
Proof. intros Hdis w. unfold instrument_libraries. by rewrite Hdis. Qed.

(** C4.  When the configuration is disabled, [setup_tracing] logs that
    tracing is disabled and returns [None], and [instrument_libraries]
    returns; neither calls into the tracing packages, so no tracer
    provider, exporter, span processor, propagator or instrumentation is
    installed. *)
Theorem disabled_installs_nothing cfg w :
  otel_enabled cfg = false ->
  setup_tracing sdk cfg w
  = (add_events [Log INFO "OpenTelemetry is disabled" []] w, Ok None)
  /\ instrument_libraries sdk cfg w = (w, Ok tt)
  /\ (_otel_config w = Some cfg ->
      setup_opentelemetry sdk w
      = (add_events [Log INFO "OpenTelemetry is disabled" []] w, Ok None))
  /\ (forall w' r,
        setup_tracing sdk cfg w = (w', r) ->
        tracer_provider w' = tracer_provider w
        /\ global_textmap w' = global_textmap w
        /\ Forall (fun ev => is_call ev = false) (new_events w w')).
Proof.
  intros Hdis.
  pose proof (setup_tracing_disabled cfg w Hdis) as Hsetup.
  pose proof (instrument_libraries_disabled cfg Hdis) as Hinstr.
  split; [done|]. split; [done|]. split.
  - intros Hcfg. unfold setup_opentelemetry.
    erewrite bind_ok; [|unfold get_otel_config; by rewrite Hcfg].
    erewrite bind_ok by exact Hsetup.
    erewrite bind_ok by apply Hinstr. reflexivity.
  - intros w' r Hrun. rewrite Hsetup in Hrun. simplify_eq.
    rewrite new_events_add. repeat split. by repeat constructor.
Qed.

(** C5.  When the configuration is enabled, [instrument_libraries] returns
    whatever the instrumentors do, and every library whose flag is set is
    attempted: its instrumentor is constructed and, if that returns,
    [instrument()] is called; if either raises, a warning naming the
    library is logged with the exception, and otherwise the activation is
    logged.  A library whose flag is not set is not touched. *)
Theorem instrument_libraries_isolates_failures cfg w :
  otel_enabled cfg = true ->
  exists evs,
    instrument_libraries sdk cfg w = (add_events evs w, Ok tt)
    /\ (forall l,
          instrument_flag cfg l = true ->
          Call (Instrumentor_new l) (sdk (Instrumentor_new l)) ∈ evs
          /\ (sdk (Instrumentor_new l) = None ->
              Call (instrument l) (sdk (instrument l)) ∈ evs)
          /\ (forall e, activation_error sdk l = Some e ->
                Log WARNING (failed_to_instrument l) [ArgExn e] ∈ evs)
          /\ (activation_error sdk l = None ->
              Log INFO
                (String.append (library_name l) " instrumentation enabled") []
              ∈ evs))
    /\ (forall l o,
          instrument_flag cfg l = false ->
          (Call (Instrumentor_new l) o ∉ evs)
          /\ (Call (instrument l) o ∉ evs)).
Proof.
  intros Hen. eexists. split; [by apply instrument_libraries_run|]. split.
  - intros l Hl.
    destruct (guarded_events_attempt l) as (H1 & H2 & H3 & H4).
    destruct l; simpl in Hl; rewrite Hl;
      (split; [|split; [|split]]); intros;
      rewrite !elem_of_app; auto 6.
  - intros l o Hl.
    split; intros H; rewrite !elem_of_app in H;
      destruct H as [H|[H|[H|H]]];
      apply guarded_events_calls in H as [Hf [Hc|Hc]];
      simplify_eq; simpl in Hl; congruence.
Qed.

(** *** What a computation appends to the events, and what it keeps *)

Lemma emits_ret {A} P (a : A) : emits P (ret a).
Proof. intros w. exists []. simpl. by rewrite app_nil_r. Qed.

Lemma emits_raise {A} P e : emits P (@raise A e).
Proof. intros w. exists []. simpl. by rewrite app_nil_r. Qed.

Lemma emits_emit (P : event -> Prop) ev : P ev -> emits P (emit ev).
Proof. intros H w. exists [ev]. simpl. auto. Qed.

Lemma emits_state {A} P (g : World -> World) (a : A) :
  (forall w, events (g w) = events w) -> emits P (fun w => (g w, Ok a)).
Proof. intros H w. exists []. simpl. by rewrite H, app_nil_r. Qed.

Lemma emits_bind {A B} P (m : M A) (k : A -> M B) :
  emits P m -> (forall a, emits P (k a)) -> emits P (bind m k).
Proof.
  intros Hm Hk w. unfold bind. destruct (Hm w) as (l1 & E1 & F1).
  destruct (m w) as [w1 [a|e]]; simpl in *.
  - destruct (Hk a w1) as (l2 & E2 & F2). exists (l1 ++ l2).
    rewrite E2, E1, app_assoc. split; [done|]. by apply Forall_app.
  - by exists l1.
Qed.

Lemma emits_call (P : event -> Prop) c :
  (forall o, P (Call c o)) -> emits P (call sdk c).
Proof.
  intros H w. rewrite call_run. exists [Call c (sdk c)]. simpl. auto.
Qed.

Lemma emits_for_each {A} P (l : list A) (body : A -> M unit) :
  (forall x, emits P (body x)) -> emits P (for_each l body).
Proof.
  intros H. induction l as [|x l IH]; simpl.
  - apply emits_ret.
  - apply emits_bind; auto.
Qed.

Lemma emits_index P l i : emits P (index l i).
Proof. unfold index. destruct (l !! i); [apply emits_ret|apply emits_raise]. Qed.

Lemma emits_int P s : emits P (int s).
Proof. unfold int. destruct (Py.int s); [apply emits_ret|apply emits_raise]. Qed.

Lemma emits_get_tracer P name : emits P (trace_get_tracer name).
Proof.
  intros w. exists []. unfold trace_get_tracer.
  destruct (tracer_provider w); simpl; by rewrite app_nil_r.
Qed.

Ltac solve_emits :=
  unfold logger_info, logger_warning, trace_set_tracer_provider,
    provider_add_span_processor, propagate_set_global_textmap;
  repeat first
    [ apply emits_ret | apply emits_raise
    | apply emits_emit; by auto
    | apply emits_call; by auto
    | apply emits_index | apply emits_int | apply emits_get_tracer
    | apply emits_state; by auto
    | apply emits_for_each; intros
    | apply emits_bind; [|intros]
    | case_match ].

Lemma emits_configure_exporters cfg :
  emits (fun ev => is_attach ev = false /\ is_set_textmap ev = false)
    (configure_exporters sdk cfg).
Proof. unfold configure_exporters. solve_emits. Qed.

Lemma stops_ret {A} (a : A) : stops_at_failure (ret a).
Proof. intros w. exists []. simpl. rewrite app_nil_r. split; [done|]. constructor. Qed.

Lemma stops_raise {A} e : stops_at_failure (@raise A e).
Proof.
  intros w. exists []. simpl. rewrite app_nil_r. split; [done|].
  exists []. split; [constructor|by left].
Qed.

Lemma stops_log {A} level fmt args (a : A) :
  stops_at_failure (bind (emit (Log level fmt args)) (fun _ => ret a)).
Proof.
  intros w. exists [Log level fmt args]. simpl. split; [done|].
  by repeat constructor.
Qed.

Lemma stops_call c : stops_at_failure (call sdk c).
Proof.
  intros w. rewrite call_run. exists [Call c (sdk c)]. simpl. split; [done|].
  destruct (sdk c) as [e|].
  - exists []. split; [constructor|]. right. by exists c.
  - by repeat constructor.
Qed.

Lemma stops_bind {A B} (m : M A) (k : A -> M B) :
  stops_at_failure m -> (forall a, stops_at_failure (k a)) ->
  stops_at_failure (bind m k).
Proof.
  intros Hm Hk w. unfold bind. destruct (Hm w) as (l1 & E1 & F1).
  destruct (m w) as [w1 [a|e]]; simpl in *.
  - destruct (Hk a w1) as (l2 & E2 & F2). exists (l1 ++ l2).
    rewrite E2, E1, app_assoc. split; [done|].
    destruct (k a w1) as [w2 [b|e]]; simpl in *.
    + by apply Forall_app.
    + destruct F2 as (l0 & F0 & [->|[c ->]]).
      * exists (l1 ++ l0). split; [by apply Forall_app|by left].
      * exists (l1 ++ l0). split; [by apply Forall_app|].
        right. exists c. by rewrite app_assoc.
  - by exists l1.
Qed.

Lemma stops_index l i : stops_at_failure (index l i).
Proof. unfold index. destruct (l !! i); [apply stops_ret|apply stops_raise]. Qed.

Lemma stops_int s : stops_at_failure (int s).
Proof. unfold int. destruct (Py.int s); [apply stops_ret|apply stops_raise]. Qed.

Lemma stops_configure_exporters cfg :
  stops_at_failure (configure_exporters sdk cfg).
Proof.
  unfold configure_exporters, logger_info.
  repeat first
    [ apply stops_ret | apply stops_raise | apply stops_log
    | apply stops_call | apply stops_index | apply stops_int
    | apply stops_bind; [|intros]
    | case_match ].
Qed.

Section Frame.

Context {X : Type} (f : World -> X).
Hypothesis f_events : forall l w, f (add_events l w) = f w.

Lemma keeps_ret {A} (a : A) : keeps f (ret a).
Proof. by intros w. Qed.

Lemma keeps_raise {A} e : keeps f (@raise A e).
Proof. by intros w. Qed.

Lemma keeps_emit ev : keeps f (emit ev).
Proof. intros w. rewrite emit_run. apply f_events. Qed.

Lemma keeps_bind {A B} (m : M A) (k : A -> M B) :
  keeps f m -> (forall a, keeps f (k a)) -> keeps f (bind m k).
Proof.
  intros Hm Hk w. unfold bind. specialize (Hm w).
  destruct (m w) as [w1 [a|e]]; simpl in *; [|done].
  by rewrite (Hk a w1).
Qed.

Lemma keeps_call c : keeps f (call sdk c).
Proof. intros w. rewrite call_run. apply f_events. Qed.

Lemma keeps_index l i : keeps f (index l i).
Proof. unfold index. destruct (l !! i); [apply keeps_ret|apply keeps_raise]. Qed.

Lemma keeps_int s : keeps f (int s).
Proof. unfold int. destruct (Py.int s); [apply keeps_ret|apply keeps_raise]. Qed.

Lemma keeps_configure_exporters cfg : keeps f (configure_exporters sdk cfg).
Proof.
  unfold configure_exporters, logger_info.
  repeat first
    [ apply keeps_ret | apply keeps_raise | apply keeps_emit
    | apply keeps_call | apply keeps_index | apply keeps_int
    | apply keeps_bind; [|intros]
    | case_match ].
Qed.

End Frame.

(** *** [setup_tracing] *)

Lemma bind_set_tracer_provider {B} tp (k : unit -> M B) w :
  bind (trace_set_tracer_provider sdk tp) k w
  = match sdk (set_tracer_provider tp) with
    | None =>
        let w' := add_events [Call (set_tracer_provider tp) None] w in
        k tt {| environ := environ w'; _otel_config := _otel_config w';
                tracer_provider := Some tp;
                global_textmap := global_textmap w';
                finished_spans := finished_spans w'; events := events w' |}
    | Some e => (add_events [Call (set_tracer_provider tp) (Some e)] w, Raise e)
    end.
Proof.
  unfold trace_set_tracer_provider, bind. rewrite call_run.
  by destruct (sdk (set_tracer_provider tp)).
Qed.

Lemma bind_set_global_textmap {B} p (k : unit -> M B) w :
  bind (propagate_set_global_textmap sdk p) k w
  = match sdk (set_global_textmap p) with
    | None =>
        let w' := add_events [Call (set_global_textmap p) None] w in
        k tt {| environ := environ w'; _otel_config := _otel_config w';
                tracer_provider := tracer_provider w';
                global_textmap := Some p;
                finished_spans := finished_spans w'; events := events w' |}
    | Some e => (add_events [Call (set_global_textmap p) (Some e)] w, Raise e)
    end.
Proof.
  unfold propagate_set_global_textmap, bind. rewrite call_run.
  by destruct (sdk (set_global_textmap p)).
Qed.

(** Lines 77 to 88, when the three calls return. *)
Lemma setup_tracing_registers {B} cfg (k : unit -> M B) w :
  let r := {| attributes := resource_attributes cfg |} in
  let tp := {| resource := r; span_processors := [] |} in
  sdk (Resource_create (resource_attributes cfg)) = None ->
  sdk (TracerProvider_new r) = None ->
  sdk (set_tracer_provider tp) = None ->
  bind (call sdk (Resource_create (resource_attributes cfg)))
    (fun _ => bind (call sdk (TracerProvider_new r))
       (fun _ => bind (trace_set_tracer_provider sdk tp) k)) w
  = k tt (provider_registered cfg w).
Proof.
  intros r tp H1 H2 H3.
  rewrite bind_call, H1, bind_call, H2, bind_set_tracer_provider, H3.
  cbv zeta. f_equal. unfold provider_registered, add_events. simpl.
  f_equal. by rewrite <- !app_assoc.
Qed.

(** C3 (amended).  When the configuration is enabled and the provider has
    been registered, an exception raised while the exporters are
    constructed (lines 90 to 111: by a constructor or by the conversion of
    the Jaeger port) is not isolated: [setup_tracing] stops there and
    raises it.  Every call made before the failure had returned and nothing
    follows the failing call, so that the exporters that come after the
    failing one are not constructed; no exporter is attached (no span
    processor is made or added to the provider) and no propagator is
    installed. *)
Theorem exporter_failure_aborts_setup cfg w w2 e :
  otel_enabled cfg = true ->
  sdk (Resource_create (resource_attributes cfg)) = None ->
  sdk (TracerProvider_new {| attributes := resource_attributes cfg |}) = None ->
  sdk (set_tracer_provider
         {| resource := {| attributes := resource_attributes cfg |};
            span_processors := [] |}) = None ->
  configure_exporters sdk cfg (provider_registered cfg w) = (w2, Raise e) ->
  setup_tracing sdk cfg w = (w2, Raise e)
  /\ (exists l0,
        all_returned l0
        /\ (new_events (provider_registered cfg w) w2 = l0
            \/ exists c,
                 new_events (provider_registered cfg w) w2
                 = l0 ++ [Call c (Some e)]))
  /\ Forall (fun ev => is_attach ev = false /\ is_set_textmap ev = false)
       (new_events w w2)
  /\ span_processors <$> tracer_provider w2 = Some []
  /\ global_textmap w2 = global_textmap w.
Proof.
  intros Hen H1 H2 H3 Hexp. split; [|split; [|split; [|split]]].
  - unfold setup_tracing. rewrite Hen. cbn [negb].
    rewrite (setup_tracing_registers cfg _ w H1 H2 H3).
    by rewrite (bind_raise _ _ _ _ _ Hexp).
  - destruct (stops_configure_exporters cfg (provider_registered cfg w))
      as (l & El & Fl).
    rewrite Hexp in El, Fl. simpl in El, Fl. unfold new_events.
    rewrite El, drop_app_length. exact Fl.
  - destruct (emits_configure_exporters cfg (provider_registered cfg w))
      as (l & El & Fl).
    rewrite Hexp in El. simpl in El. unfold new_events. rewrite El.
    rewrite <- app_assoc, drop_app_length. apply Forall_app. split; [|done].
    by repeat constructor.
  - pose proof (keeps_configure_exporters tracer_provider (fun _ _ => eq_refl)
                  cfg (provider_registered cfg w)) as Hk.
    rewrite Hexp in Hk. simpl in Hk. by rewrite Hk.
  - pose proof (keeps_configure_exporters global_textmap (fun _ _ => eq_refl)
                  cfg (provider_registered cfg w)) as Hk.
    rewrite Hexp in Hk. simpl in Hk. by rewrite Hk.
Qed.

(** The Jaeger port of the scenario of section 8: the conversion raises
    before any exporter is constructed. *)
Lemma configure_exporters_bad_port cfg ep part w :
  jaeger_endpoint cfg = Some ep ->
  Py.contains ":" ep = true ->
  Py.split ":" ep !! 1%nat = Some part ->
  Py.int part = None ->
  configure_exporters sdk cfg w = (w, Raise (ValueError (BadIntLiteral part))).
Proof.
  intros Hep Hc Hpart Hint. unfold configure_exporters. rewrite Hep, Hc.
  assert (Py.truthy ep = true) as -> by (by destruct ep).
  assert (exists host, Py.split ":" ep !! 0%nat = Some host) as [host Hhost].
  { destruct (Py.split ":" ep); [done|]. by eexists. }
  unfold index. rewrite Hhost, Hpart. unfold bind, ret, int. cbv beta iota.
  by rewrite Hint.
Qed.

(** C7 (amended).  When the configuration is enabled and [setup_tracing]
    returns (no call into the tracing packages and no conversion of the
    Jaeger port raised), the propagator installed is the composite of the
    W3C trace-context, B3 and Jaeger formats, in this order: the three
    formats are constructed in this order, composed and installed as the
    last calls of the set-up, and a tracer is returned. *)
Theorem setup_installs_composite_propagator cfg w w' r :
  otel_enabled cfg = true ->
  setup_tracing sdk cfg w = (w', Ok r) ->
  global_textmap w'
  = Some (CompositeHTTPPropagator
            [TraceContextPropagator; B3MultiFormat; JaegerPropagator])
  /\ (exists evs,
        events w'
        = evs ++
          [Call (Propagator_new TraceContextPropagator) None;
           Call (Propagator_new B3MultiFormat) None;
           Call (Propagator_new JaegerPropagator) None;
           Call (Propagator_new composite_propagator) None;
           Call (set_global_textmap composite_propagator) None;
           Log INFO "OpenTelemetry tracing initialized for service: %s"
             [ArgStr (service_name cfg)]])
  /\ exists tracer, r = Some tracer.
Proof.
  intros Hen Hrun. unfold setup_tracing in Hrun. rewrite Hen in Hrun.
  cbn [negb] in Hrun.
  do 6 (apply bind_inv_ok in Hrun as (? & ? & _ & Hrun)).
  rewrite bind_call in Hrun.
  destruct (sdk (Propagator_new TraceContextPropagator)); [done|].
  rewrite bind_call in Hrun.
  destruct (sdk (Propagator_new B3MultiFormat)); [done|].
  rewrite bind_call in Hrun.
  destruct (sdk (Propagator_new JaegerPropagator)); [done|].
  rewrite bind_call in Hrun.
  destruct (sdk (Propagator_new _)); [done|].
  rewrite bind_set_global_textmap in Hrun.
  destruct (sdk (set_global_textmap _)); [done|].
  cbv zeta in Hrun. rewrite !add_events_app in Hrun.
  unfold bind, ret, trace_get_tracer, logger_info in Hrun. simpl in Hrun.
  match type of Hrun with
  | context [tracer_provider ?x] => destruct (tracer_provider x)
  end; simpl in Hrun; simplify_eq; simpl;
    (split; [done|]); (split; [|by eexists]);
    eexists; rewrite <- app_assoc; reflexivity.
Qed.

(** C2 (amended).  When the configuration is enabled, the first thing
    [setup_tracing] does is to hand to [Resource.create] a dictionary in
    which every custom attribute has its custom value, so that a custom
    attribute with the key of a fixed field replaces it; a fixed field has
    its configured value only when no custom attribute has its key. *)
Theorem resource_custom_attributes_override cfg w :
  otel_enabled cfg = true ->
  exists attrs rest,
    events (setup_tracing sdk cfg w).1
    = events w ++ Call (Resource_create attrs) (sdk (Resource_create attrs))
                  :: rest
    /\ (forall k v, custom_attributes cfg !! k = Some v -> attrs !! k = Some v)
    /\ (custom_attributes cfg !! "service.name" = None ->
        attrs !! "service.name" = Some (service_name cfg))
    /\ (custom_attributes cfg !! "service.version" = None ->
        attrs !! "service.version" = Some (service_version cfg))
    /\ (custom_attributes cfg !! "deployment.environment" = None ->
        attrs !! "deployment.environment" = Some (environment cfg)).
Proof.
  intros Hen. exists (resource_attributes cfg).
  assert (exists rest,
            events (setup_tracing sdk cfg w).1
            = events w ++
              Call (Resource_create (resource_attributes cfg))
                (sdk (Resource_create (resource_attributes cfg))) :: rest)
    as [rest Hrest].
  { unfold setup_tracing. rewrite Hen. cbn [negb]. rewrite bind_call.
    destruct (sdk (Resource_create (resource_attributes cfg))) as [e|].
    - by exists [].
    - lazymatch goal with
      | |- context [fst (?m (add_events ?l w))] =>
          assert (emits (fun _ => True) m) as Hm by solve_emits;
          destruct (Hm (add_events l w)) as (rest & Hr & _)
      end.
      exists rest. rewrite Hr. simpl. by rewrite <- app_assoc. }
  exists rest. split; [done|]. unfold resource_attributes.
  split; [|split; [|split]].
  - intros k v Hk. by apply lookup_union_Some_l.
  - intros Hk. rewrite lookup_union_r by done. by simplify_map_eq.
  - intros Hk. rewrite lookup_union_r by done. by simplify_map_eq.
  - intros Hk. rewrite lookup_union_r by done. by simplify_map_eq.
Qed.

End Setup.

(** ** Witnesses and counterexamples of the set-up *)

Lemma disabled_installs_nothing_witness :
  setup_tracing sdk_no_flask disabled_config (initial_world ∅)
  = (add_events [Log INFO "OpenTelemetry is disabled" []] (initial_world ∅),
     Ok None)
  /\ instrument_libraries sdk_no_flask disabled_config (initial_world ∅)
     = (initial_world ∅, Ok tt).
Proof.
  destruct (disabled_installs_nothing sdk_no_flask disabled_config
              (initial_world ∅)) as (H1 & H2 & _).
  - reflexivity.
  - by split.
Defined.

Lemma instrument_libraries_isolates_failures_witness :
  exists evs,
    instrument_libraries sdk_no_flask sample_config (initial_world ∅)
    = (add_events evs (initial_world ∅), Ok tt)
    /\ Log WARNING "Failed to instrument Flask: %s"
         [ArgExn (Exception_ "ImportError" "No module named flask")] ∈ evs
    /\ Call (instrument SQLAlchemy) None ∈ evs
    /\ Call (instrument Psycopg2) None ∈ evs.
Proof.
  destruct (instrument_libraries_isolates_failures sdk_no_flask sample_config
              (initial_world ∅)) as (evs & Hrun & Hon & _).
  - reflexivity.
  - exists evs. split; [exact Hrun|]. split; [|split].
    + apply (Hon Flask); reflexivity.
    + apply (Hon SQLAlchemy); reflexivity.
    + apply (Hon Psycopg2); reflexivity.
Defined.

(** C3, counterexample.  With the Jaeger endpoint [bad:not-a-port] and the
    console exporter enabled, no call into the tracing packages raising,
    [setup_tracing] raises the [ValueError] of the port: the console
    exporter is never constructed and nothing is attached. *)
Lemma bad_jaeger_port_prevents_console_exporter :
  otel_enabled bad_port_config = true
  /\ jaeger_endpoint bad_port_config = Some "bad:not-a-port"
  /\ console_exporter bad_port_config = true
  /\ (setup_tracing sdk_ok bad_port_config (initial_world ∅)).2
     = Raise (ValueError (BadIntLiteral "not-a-port"))
  /\ existsb (is_construction_of ConsoleSpanExporter)
       (events (setup_tracing sdk_ok bad_port_config (initial_world ∅)).1)
     = false
  /\ existsb is_attach
       (events (setup_tracing sdk_ok bad_port_config (initial_world ∅)).1)
     = false.
Proof. repeat split; by vm_compute. Qed.

Lemma exporter_failure_aborts_setup_witness :
  setup_tracing sdk_ok bad_port_config (initial_world ∅)
  = (provider_registered bad_port_config (initial_world ∅),
     Raise (ValueError (BadIntLiteral "not-a-port"))).
Proof.
  refine (proj1 (exporter_failure_aborts_setup sdk_ok bad_port_config
                   (initial_world ∅)
                   (provider_registered bad_port_config (initial_world ∅))
                   (ValueError (BadIntLiteral "not-a-port")) _ _ _ _ _)).
  - reflexivity.
  - reflexivity.
  - reflexivity.
  - reflexivity.
  - vm_compute; reflexivity.
Defined.

(** C7, counterexample.  The same enabled configuration: [setup_tracing]
    raises before line 127, and no propagator is installed. *)
Lemma bad_jaeger_port_installs_no_propagator :
  otel_enabled bad_port_config = true
  /\ (setup_tracing sdk_ok bad_port_config (initial_world ∅)).2
     = Raise (ValueError (BadIntLiteral "not-a-port"))
  /\ global_textmap (setup_tracing sdk_ok bad_port_config (initial_world ∅)).1
     = None
  /\ existsb is_set_textmap
       (events (setup_tracing sdk_ok bad_port_config (initial_world ∅)).1)
     = false.
Proof. repeat split; by vm_compute. Qed.

Lemma setup_installs_composite_propagator_witness :
  global_textmap (setup_tracing sdk_ok sample_config (initial_world ∅)).1
  = Some (CompositeHTTPPropagator
            [TraceContextPropagator; B3MultiFormat; JaegerPropagator]).
Proof.
  refine (proj1 (setup_installs_composite_propagator sdk_ok sample_config
                   (initial_world ∅)
                   (setup_tracing sdk_ok sample_config (initial_world ∅)).1
                   (Some (SdkTracer __name__)) _ _)).
  - reflexivity.
  - vm_compute; reflexivity.
Defined.

(** C2, counterexample.  The custom attribute [service.name=other-service]
    replaces the configured service name in the dictionary handed to
    [Resource.create], and in the resource of the registered provider. *)
Lemma custom_service_name_replaces_fixed_field :
  otel_enabled colliding_config = true
  /\ custom_attributes colliding_config !! "service.name"
     = Some "other-service"
  /\ service_name colliding_config = "insights-host-inventory"
  /\ exists attrs,
       head (events (setup_tracing sdk_ok colliding_config (initial_world ∅)).1)
       = Some (Call (Resource_create attrs) None)
       /\ (attributes ∘ resource)
          <$> tracer_provider
                (setup_tracing sdk_ok colliding_config (initial_world ∅)).1
          = Some attrs
       /\ attrs !! "service.name" = Some "other-service"
       /\ attrs !! "service.name" <> Some (service_name colliding_config).
Proof.
  split; [reflexivity|]. split; [by vm_compute|]. split; [reflexivity|].
  exists (resource_attributes colliding_config).
  split; [by vm_compute|]. split; [by vm_compute|]. split; [by vm_compute|].
  by vm_compute.
Qed.

Lemma resource_custom_attributes_override_witness :
  exists attrs rest,
    events (setup_tracing sdk_ok colliding_config (initial_world ∅)).1
    = Call (Resource_create attrs) None :: rest
    /\ attrs !! "service.name" = Some "other-service".
Proof.
  destruct (resource_custom_attributes_override sdk_ok colliding_config
              (initial_world ∅)) as (attrs & rest & Hev & Hcustom & _).
  - reflexivity.
  - exists attrs, rest. split; [exact Hev|].
    apply Hcustom. vm_compute; reflexivity.
Defined.

(** ** The parse never raises *)

Lemma split1_shape c s :
  Py.split1 c s = [s] \/ exists k v, Py.split1 c s = [k; v].
Proof.
  induction s as [|a s IH]; simpl; [by left|].
  destruct (Ascii.eqb a c); [right; by eauto|].
  destruct IH as [->|(k & v & ->)]; [by left|right; by eauto].
Qed.

Lemma parse_loop_total l :
  forall m, exists m',
    parse_loop m l = (m', Ok tt)
    \/ parse_loop m l = (m', Raise (ValueError (NotEnoughValues 2 1))).
Proof.
  induction l as [|attr l IH]; intros m; simpl; [by eauto|].
  destruct (split1_shape "=" (Py.strip attr)) as [->|(k & v & ->)]; simpl.
  - by eauto.
  - apply IH.
Qed.

Lemma parse_total (o : option string) :
  exists (m : gmap string string) l,
    env_reads l = []
    /\ forall w,
         environ w !! "OTEL_CUSTOM_ATTRIBUTES" = o ->
         _parse_custom_attributes w
         = (add_events (Getenv "OTEL_CUSTOM_ATTRIBUTES" :: l) w, Ok m).
Proof.
  destruct (Py.truthy (default "" o)) eqn:Ht.
  - destruct (parse_loop_total (Py.split "," (default "" o)) ∅) as [m [Hm|Hm]].
    + exists m, []. split; [done|]. intros w Hw.
      unfold _parse_custom_attributes. rewrite bind_getenv_default, Hw, Ht, Hm.
      reflexivity.
    + exists m, [Log WARNING "Failed to parse OTEL_CUSTOM_ATTRIBUTES: %s"
                   [ArgExn (ValueError (NotEnoughValues 2 1))]].
      split; [done|]. intros w Hw.
      unfold _parse_custom_attributes. rewrite bind_getenv_default, Hw, Ht, Hm.
      change (is_ValueError (ValueError (NotEnoughValues 2 1))) with true.
      cbv beta iota. unfold logger_warning. rewrite bind_emit.
      unfold ret. by rewrite add_events_app.
  - exists ∅, []. split; [done|]. intros w Hw.
    unfold _parse_custom_attributes. rewrite bind_getenv_default, Hw, Ht.
    reflexivity.
Qed.



(** ** The accessors *)





(** C9.  In a world where no tracer provider was registered, whatever the
    name, [get_tracer] returns a no-op tracer; starting a span on it,
    setting an attribute and closing the span all return without raising
    and leave the world as it is: nothing is recorded or exported.  No
    provider is registered in a fresh process, nor by the set-up of a
    disabled configuration. *)
Theorem get_tracer_before_initialization_is_noop w name :
  tracer_provider w = None ->
  get_tracer name w = (w, Ok (NoOpTracer name))
  /\ (forall span_name key value,
        (tracer <- get_tracer name ;;
         span <- start_span tracer span_name ;;
         span <- set_attribute span key value ;;
         end_span span) w
        = (w, Ok tt))
  /\ (forall env, tracer_provider (initial_world env) = None)
  /\ (forall sdk cfg,
        otel_enabled cfg = false ->
        tracer_provider (setup_tracing sdk cfg w).1 = None
        /\ tracer_provider (instrument_libraries sdk cfg w).1 = None).
Proof.
  intros Hnone.
  assert (get_tracer name w = (w, Ok (NoOpTracer name))) as Hget.
  { unfold get_tracer, trace_get_tracer. by rewrite Hnone. }
  split; [done|]. split; [|split].
  - intros span_name key value. by rewrite (bind_ok _ _ _ _ _ Hget).
  - done.
  - intros sdk cfg Hdis.
    rewrite (setup_tracing_disabled sdk cfg w Hdis).
    by rewrite (instrument_libraries_disabled sdk cfg Hdis).
Qed.

Lemma get_tracer_before_initialization_is_noop_witness :
  get_tracer "app.hosts"
    (setup_tracing sdk_ok disabled_config (initial_world ∅)).1
  = ((setup_tracing sdk_ok disabled_config (initial_world ∅)).1,
     Ok (NoOpTracer "app.hosts")).
Proof.
  refine (proj1 (get_tracer_before_initialization_is_noop
                   (setup_tracing sdk_ok disabled_config (initial_world ∅)).1
                   "app.hosts" _)).
  reflexivity.
Defined.

(** * Further properties *)

(** ** The configuration read from the environment *)

Lemma init_run w x l m :
  Py.float (default "0.1" (environ w !! "OTEL_TRACE_SAMPLE_RATE")) = Some x ->
  (forall w', environ w' = environ w ->
     _parse_custom_attributes w' = (add_events l w', Ok m)) ->
  __init__ w
  = (add_events (reads_before_rate ++ reads_of_flags ++ l) w,
     Ok (config_of_environ (environ w) x m)).
Proof.
  intros Hx Hparse. unfold __init__.
  do 4 (rewrite bind_getenv_default; cbv beta).
  do 2 (rewrite bind_getenv; cbv beta).
  do 2 (rewrite bind_getenv_default; cbv beta).
  rewrite !add_events_app. simpl environ. unfold float at 1. rewrite Hx.
  erewrite bind_ok by reflexivity.
  do 4 (rewrite bind_getenv_default; cbv beta).
  rewrite !add_events_app.
  erewrite bind_ok by (apply Hparse; reflexivity).
  rewrite !add_events_app. reflexivity.
Qed.

Lemma default_rate_accepted : Py.float "0.1" = Some (Py.FDec false 1 (-1)).
Proof. reflexivity. Qed.

Lemma init_inv w w' c :
  __init__ w = (w', Ok c) ->
  exists x m,
    Py.float (default "0.1" (environ w !! "OTEL_TRACE_SAMPLE_RATE")) = Some x
    /\ c = config_of_environ (environ w) x m.
Proof.
  intros Hrun.
  destruct (Py.float (default "0.1" (environ w !! "OTEL_TRACE_SAMPLE_RATE")))
    as [x|] eqn:Hx.
  - destruct (parse_total (environ w !! "OTEL_CUSTOM_ATTRIBUTES"))
      as (m & l & _ & Hparse).
    rewrite (init_run w x (Getenv "OTEL_CUSTOM_ATTRIBUTES" :: l) m Hx) in Hrun.
    + exists x, m. split; [done|]. congruence.
    + intros w0 Hw0. apply Hparse. by rewrite Hw0.
  - destruct (environ w !! "OTEL_TRACE_SAMPLE_RATE") as [s|] eqn:Hs.
    + rewrite (init_bad_rate w s Hs Hx) in Hrun. discriminate.
    + simpl in Hx. rewrite default_rate_accepted in Hx. discriminate.
Qed.

Lemma parse_unset w :
  environ w !! "OTEL_CUSTOM_ATTRIBUTES" = None ->
  _parse_custom_attributes w
  = (add_events [Getenv "OTEL_CUSTOM_ATTRIBUTES"] w, Ok ∅).
Proof.
  intros H. unfold _parse_custom_attributes.
  by rewrite bind_getenv_default, H.
Qed.

(** X1.  In an environment that sets none of the thirteen settings, the
    construction reads each of them once, in order, and returns the
    configuration of the defaults: tracing disabled, no endpoint, no
    console exporter, sample rate 0.1, every library flagged, no custom
    attribute. *)
Theorem unset_settings_take_defaults w :
  (forall k, k ∈ settings -> environ w !! k = None) ->
  __init__ w = (add_events (Getenv <$> settings) w, Ok default_config).
Proof.
  intros Hunset.
  assert (forall k, k ∈ settings -> environ w !! k = None) as H by done.
  rewrite (init_run w (Py.FDec false 1 (-1))
             [Getenv "OTEL_CUSTOM_ATTRIBUTES"] ∅).
  - f_equal. f_equal. unfold config_of_environ.
    rewrite !H by (unfold settings; repeat constructor). reflexivity.
  - rewrite H by (unfold settings; repeat constructor). reflexivity.
  - intros w' Hw'. apply parse_unset. rewrite Hw'.
    apply H. unfold settings. repeat constructor.
Qed.

Lemma unset_settings_take_defaults_witness :
  __init__ (initial_world ∅)
  = (add_events (Getenv <$> settings) (initial_world ∅), Ok default_config).
Proof.
  apply (unset_settings_take_defaults (initial_world ∅)).
  intros k _. apply lookup_empty.
Defined.


(** ** The flags *)

Lemma lower_char_t a :
  Py.lower_char a = "t"%char -> (a = "t" \/ a = "T")%char.
Proof.
  destruct a as [[] [] [] [] [] [] [] []]; vm_compute; intros H;
    first [discriminate H | by left | by right].
Qed.

Lemma lower_char_r a :
  Py.lower_char a = "r"%char -> (a = "r" \/ a = "R")%char.
Proof.
  destruct a as [[] [] [] [] [] [] [] []]; vm_compute; intros H;
    first [discriminate H | by left | by right].
Qed.

Lemma lower_char_u a :
  Py.lower_char a = "u"%char -> (a = "u" \/ a = "U")%char.
Proof.
  destruct a as [[] [] [] [] [] [] [] []]; vm_compute; intros H;
    first [discriminate H | by left | by right].
Qed.

Lemma lower_char_e a :
  Py.lower_char a = "e"%char -> (a = "e" \/ a = "E")%char.
Proof.
  destruct a as [[] [] [] [] [] [] [] []]; vm_compute; intros H;
    first [discriminate H | by left | by right].
Qed.

Lemma lower_spells_true v : Py.lower v = "true" <-> spells_true v.
Proof.
  split.
  - destruct v as [|a [|b [|c [|d [|x v]]]]]; simpl; intros H;
      try discriminate H.
    injection H as Ha Hb Hc Hd. exists a, b, c, d.
    split; [done|]. split; [by apply lower_char_t|].
    split; [by apply lower_char_r|]. split; [by apply lower_char_u|].
    by apply lower_char_e.
  - intros (a & b & c & d & -> & Ha & Hb & Hc & Hd).
    destruct Ha as [->| ->], Hb as [->| ->], Hc as [->| ->], Hd as [->| ->];
      reflexivity.
Qed.

Lemma flag_value_default_false o :
  flag_value "false" o = true <-> exists v, o = Some v /\ spells_true v.
Proof.
  unfold flag_value. rewrite String.eqb_eq, lower_spells_true.
  destruct o as [v|]; simpl.
  - split; [by eauto|]. by intros (v' & [= <-] & H).
  - split; [|by intros (v' & [=] & _)].
    intros (a & b & c & d & [=] & _).
Qed.

Lemma flag_value_default_true o :
  flag_value "true" o = true
  <-> o = None \/ exists v, o = Some v /\ spells_true v.
Proof.
  unfold flag_value. rewrite String.eqb_eq, lower_spells_true.
  destruct o as [v|]; simpl.
  - split; [by eauto|]. by intros [[=]|(v' & [= <-] & H)].
  - split; [by left|]. intros _. by exists "t"%char, "r"%char, "u"%char, "e"%char; auto 10.
Qed.

(** X3.  A flag of the configuration is on exactly when its setting spells
    [true] in some mix of upper and lower case (exactly four letters: no
    white space around, no [1], [yes] or [on]).  The master switch and the
    console exporter are off when unset; the four instrumentation flags are
    on when unset. *)
Theorem flags_are_on_when_spelled_true w w' c :
  __init__ w = (w', Ok c) ->
  (otel_enabled c = true
   <-> exists v, environ w !! "OTEL_ENABLED" = Some v /\ spells_true v)
  /\ (console_exporter c = true
      <-> exists v,
            environ w !! "OTEL_CONSOLE_EXPORTER" = Some v /\ spells_true v)
  /\ (instrument_flask c = true
      <-> environ w !! "OTEL_INSTRUMENT_FLASK" = None
          \/ exists v,
               environ w !! "OTEL_INSTRUMENT_FLASK" = Some v /\ spells_true v)
  /\ (instrument_sqlalchemy c = true
      <-> environ w !! "OTEL_INSTRUMENT_SQLALCHEMY" = None
          \/ exists v,
               environ w !! "OTEL_INSTRUMENT_SQLALCHEMY" = Some v
               /\ spells_true v)
  /\ (instrument_kafka c = true
      <-> environ w !! "OTEL_INSTRUMENT_KAFKA" = None
          \/ exists v,
               environ w !! "OTEL_INSTRUMENT_KAFKA" = Some v /\ spells_true v)
  /\ (instrument_psycopg2 c = true
      <-> environ w !! "OTEL_INSTRUMENT_PSYCOPG2" = None
          \/ exists v,
               environ w !! "OTEL_INSTRUMENT_PSYCOPG2" = Some v
               /\ spells_true v).
Proof.
  intros Hrun. destruct (init_inv w w' c Hrun) as (x & m & _ & ->). simpl.
  repeat split;
    first [ by apply flag_value_default_false
          | by apply flag_value_default_true ].
Qed.

Lemma flags_are_on_when_spelled_true_witness :
  otel_enabled
    (config_of_environ env_upper_case (Py.FDec false 1 (-1)) ∅) = true.
Proof.
  refine (proj2 (proj1 (flags_are_on_when_spelled_true
                          (initial_world env_upper_case)
                          (__init__ (initial_world env_upper_case)).1
                          (config_of_environ env_upper_case
                             (Py.FDec false 1 (-1)) ∅) _)) _).
  - vm_compute; reflexivity.
  - exists "TRUE". split; [vm_compute; reflexivity|].
    exists "T"%char, "R"%char, "U"%char, "E"%char. by auto 10.
Defined.

(** X4.  The integration script writes its settings over the inherited
    environment before the configuration is constructed: whatever the
    inherited environment, the construction then succeeds with tracing
    enabled, the console exporter on, the test service name and the sample
    rate 1.0, the endpoints being those of the inherited environment. *)
Theorem smoke_test_environment_enables_tracing w :
  exists w' c,
    __init__ (os_environ_update smoke_test_settings w) = (w', Ok c)
    /\ otel_enabled c = true
    /\ console_exporter c = true
    /\ service_name c = "insights-host-inventory-test"
    /\ trace_sample_rate c = Py.FDec false 10 (-1)
    /\ jaeger_endpoint c = environ w !! "OTEL_JAEGER_ENDPOINT"
    /\ otlp_endpoint c = environ w !! "OTEL_OTLP_ENDPOINT".
Proof.
  set (w0 := os_environ_update smoke_test_settings w).
  assert (forall k v, smoke_test_settings !! k = Some v ->
            environ w0 !! k = Some v) as Hset.
  { intros k v Hk. simpl. by apply lookup_union_Some_l. }
  assert (forall k, smoke_test_settings !! k = None ->
            environ w0 !! k = environ w !! k) as Hkeep.
  { intros k Hk. simpl. by apply lookup_union_r. }
  destruct (parse_total (environ w0 !! "OTEL_CUSTOM_ATTRIBUTES"))
    as (m & l & _ & Hparse).
  eexists _, _. split.
  - apply (init_run w0 (Py.FDec false 10 (-1))
             (Getenv "OTEL_CUSTOM_ATTRIBUTES" :: l) m).
    + by rewrite (Hset "OTEL_TRACE_SAMPLE_RATE" "1.0").
    + intros w1 Hw1. apply Hparse. by rewrite Hw1.
  - unfold config_of_environ. simpl trace_sample_rate.
    cbn [otel_enabled console_exporter service_name jaeger_endpoint
           otlp_endpoint].
    rewrite (Hset "OTEL_ENABLED" "true") by done.
    rewrite (Hset "OTEL_CONSOLE_EXPORTER" "true") by done.
    rewrite (Hset "OTEL_SERVICE_NAME" "insights-host-inventory-test") by done.
    rewrite (Hkeep "OTEL_JAEGER_ENDPOINT") by done.
    rewrite (Hkeep "OTEL_OTLP_ENDPOINT") by done.
    by repeat split.
Qed.

(** ** The exporters *)

Section Exporters.

Variable sdk : sdk_call -> option exn.

Lemma split_at_separator c a b :
  Py.contains c a = false ->
  Py.split c (String.append a (String c b)) = a :: Py.split c b.
Proof.
  induction a as [|x a IH]; simpl; intros H.
  - by rewrite Ascii.eqb_refl.
  - apply orb_false_iff in H as [Hx Ha]. rewrite Hx, (IH Ha). reflexivity.
Qed.

Lemma split_no_separator c a :
  Py.contains c a = false -> Py.split c a = [a].
Proof.
  induction a as [|x a IH]; simpl; intros H; [done|].
  apply orb_false_iff in H as [Hx Ha]. rewrite Hx, (IH Ha). reflexivity.
Qed.

Lemma contains_app c a b :
  Py.contains c (String.append a b) = Py.contains c a || Py.contains c b.
Proof.
  induction a as [|x a IH]; simpl; [done|]. by rewrite IH, orb_assoc.
Qed.



(** What follows the Jaeger block in [configure_exporters] only appends
    events. *)
Ltac emits_auto :=
  unfold logger_info, logger_warning;
  repeat first
    [ apply emits_ret | apply emits_raise
    | apply emits_emit; by auto
    | apply emits_call; by auto
    | apply emits_index | apply emits_int
    | apply emits_bind; [|intros]
    | case_match ].

Lemma jaeger_exporter_first cfg ep host port w :
  jaeger_endpoint cfg = Some ep ->
  Py.truthy ep = true ->
  (if Py.contains ":" ep then index (Py.split ":" ep) 0 else ret ep) w
  = (w, Ok host) ->
  (if Py.contains ":" ep
   then bind (index (Py.split ":" ep) 1) (fun p => int p)
   else ret 14268) w = (w, Ok port) ->
  exists rest,
    events (configure_exporters sdk cfg w).1
    = events w
      ++ Call (SpanExporter_new (JaegerExporter host port))
           (sdk (SpanExporter_new (JaegerExporter host port))) :: rest.
Proof.
  intros Hep Ht Hhost Hport. unfold configure_exporters.
  rewrite Hep, Ht.
  match goal with
  | |- context [bind (bind ?h ?k1) ?k2] =>
      change (bind (bind h k1) k2 w) with
        (match bind h k1 w with
         | (w', Ok a) => k2 a w'
         | (w', Raise e) => (w', Raise e)
         end)
  end.
  rewrite (bind_ok _ _ _ _ _ Hhost), (bind_ok _ _ _ _ _ Hport), bind_call.
  destruct (sdk (SpanExporter_new (JaegerExporter host port))) as [e|].
  - exists []. reflexivity.
  - match goal with
    | |- context [match ?m (add_events ?l w) with _ => _ end] =>
        assert (emits (fun _ => True) m) as Hm by emits_auto;
        destruct (Hm (add_events l w)) as (l1 & Hl1 & _);
        destruct (m (add_events l w)) as [w1 [ex1|e1]] eqn:Hrun
    end; simpl in Hl1.
    + match goal with
      | |- context [fst (?m w1)] =>
          assert (emits (fun _ => True) m) as Hm2 by emits_auto;
          destruct (Hm2 w1) as (l2 & Hl2 & _)
      end.
      exists (l1 ++ l2). rewrite Hl2, Hl1. by rewrite <- !app_assoc.
    + exists l1. simpl. rewrite Hl1. by rewrite <- app_assoc.
Qed.

(** X5.  A Jaeger endpoint without a colon is taken whole as the host
    name of the agent, with the port 14268: the Jaeger exporter is the
    first thing constructed, with these arguments. *)
Theorem jaeger_endpoint_without_port cfg ep w :
  jaeger_endpoint cfg = Some ep ->
  ep <> "" ->
  Py.contains ":" ep = false ->
  exists rest,
    events (configure_exporters sdk cfg w).1
    = events w
      ++ Call (SpanExporter_new (JaegerExporter ep 14268))
           (sdk (SpanExporter_new (JaegerExporter ep 14268))) :: rest.
Proof.
  intros Hep Hne Hc. apply jaeger_exporter_first with ep; try done.
  - by destruct ep.
  - by rewrite Hc.
  - by rewrite Hc.
Qed.


Lemma int_rejects_slash s : Py.int (String "/" s) = None.
Proof.
  unfold Py.int, Py.strip.
  change (Py.lstrip (String "/" s)) with (String "/" s).
  assert (exists r, Py.rstrip (String "/" s) = String "/" r) as [r ->].
  { simpl. destruct (Py.rstrip s); by eauto. }
  reflexivity.
Qed.

Lemma split_keeps_first c a s :
  Ascii.eqb a c = false ->
  exists h t, Py.split c (String a s) = String a h :: t.
Proof.
  intros Ha. simpl. rewrite Ha. destruct (Py.split c s); by eauto.
Qed.

(** X7.  A Jaeger endpoint written as a URL ([scheme://...]) cannot be
    used: what stands between the first colon and the second begins with
    [//], [int] rejects it, and the construction of the exporters raises
    [ValueError] before anything is constructed; an enabled set-up then
    raises it, the provider being registered already. *)
Theorem url_jaeger_endpoint_raises cfg scheme rest w :
  jaeger_endpoint cfg
  = Some (String.append scheme (String ":" (String "/" (String "/" rest)))) ->
  Py.contains ":" scheme = false ->
  exists part,
    configure_exporters sdk cfg w
    = (w, Raise (ValueError (BadIntLiteral (String "/" (String "/" part)))))
    /\ (otel_enabled cfg = true ->
        registration_returns sdk cfg ->
        setup_tracing sdk cfg w
        = (provider_registered cfg w,
           Raise (ValueError (BadIntLiteral (String "/" (String "/" part)))))).
Proof.
  intros Hep Hscheme.
  set (ep := String.append scheme (String ":" (String "/" (String "/" rest))))
    in *.
  destruct (split_keeps_first ":" "/" rest eq_refl) as (h1 & t1 & H1).
  assert (exists t, Py.split ":" (String "/" (String "/" rest))
                    = String "/" (String "/" h1) :: t) as [t Ht].
  { change (Py.split ":" (String "/" (String "/" rest)))
      with (match Py.split ":" (String "/" rest) with
            | h :: t => String "/" h :: t
            | [] => [String "/" EmptyString]
            end).
    rewrite H1. by eauto. }
  assert (forall w0,
            configure_exporters sdk cfg w0
            = (w0, Raise (ValueError
                            (BadIntLiteral (String "/" (String "/" h1))))))
    as Hraise.
  { intros w0. apply configure_exporters_bad_port with ep.
    - done.
    - unfold ep. rewrite contains_app. simpl. by rewrite orb_true_r.
    - unfold ep. by rewrite (split_at_separator _ _ _ Hscheme), Ht.
    - apply int_rejects_slash. }
  exists h1. split; [by apply Hraise|].
  intros Hen (R1 & R2 & R3). unfold setup_tracing. rewrite Hen. cbn [negb].
  rewrite (setup_tracing_registers sdk cfg _ w R1 R2 R3).
  by rewrite (bind_raise _ _ _ _ _ (Hraise _)).
Qed.

End Exporters.

(** ** A set-up that goes through *)

Section Completion.

Variable sdk : sdk_call -> option exn.

Lemma warning_run exporters w :
  (match exporters with
   | [] => logger_warning "No OpenTelemetry exporters configured" []
   | _ => ret tt
   end) w
  = (add_events (no_exporter_warning exporters) w, Ok tt).
Proof.
  destruct exporters; simpl; [reflexivity|]. unfold ret. by rewrite add_events_nil.
Qed.

(** The loop of lines 117 to 119, when its calls return. *)
Lemma attach_run exporters :
  forall w,
    (forall e, e ∈ exporters ->
       sdk (SpanProcessor_new (BatchSpanProcessor e)) = None
       /\ sdk (add_span_processor (BatchSpanProcessor e)) = None) ->
    exists w',
      for_each exporters (fun exporter =>
        call sdk (SpanProcessor_new (BatchSpanProcessor exporter)) ;;
        provider_add_span_processor sdk (BatchSpanProcessor exporter)) w
      = (w', Ok tt)
      /\ events w' = events w ++ attach_events exporters
      /\ span_processors <$> tracer_provider w'
         = (fun tp => span_processors tp ++ (BatchSpanProcessor <$> exporters))
           <$> tracer_provider w
      /\ global_textmap w' = global_textmap w.
Proof.
  induction exporters as [|x exporters IH]; intros w Hret.
  - exists w. simpl. rewrite app_nil_r. repeat split.
    destruct (tracer_provider w); simpl; [|done]. by rewrite app_nil_r.
  - destruct (Hret x) as [H1 H2]; [by left|].
    change (for_each (x :: exporters) ?body w)
      with (bind (body x) (fun _ => for_each exporters body) w).
    cbv beta. unfold provider_add_span_processor at 1.
    set (w1 :=
           {| environ := environ w; _otel_config := _otel_config w;
              tracer_provider :=
                add_processor (BatchSpanProcessor x) <$> tracer_provider w;
              global_textmap := global_textmap w;
              finished_spans := finished_spans w;
              events := events w ++
                        [Call (SpanProcessor_new (BatchSpanProcessor x)) None;
                         Call (add_span_processor (BatchSpanProcessor x)) None]
           |}).
    destruct (IH w1) as (w' & Hrun & Hev & Htp & Htm).
    { intros e He. apply Hret. by right. }
    exists w'. split; [|split; [|split]].
    + erewrite bind_ok; [exact Hrun|].
      rewrite bind_call, H1, bind_call, H2. unfold add_events. simpl.
      unfold w1. f_equal. f_equal. by rewrite <- app_assoc.
    + rewrite Hev. simpl. by rewrite <- app_assoc.
    + rewrite Htp. simpl. destruct (tracer_provider w); simpl; [|done].
      by rewrite <- app_assoc.
    + by rewrite Htm.
Qed.

(** [setup_tracing] from line 113 on, when the calls it makes return. *)
Lemma setup_tracing_completes cfg w w2 exporters :
  otel_enabled cfg = true ->
  registration_returns sdk cfg ->
  configure_exporters sdk cfg (provider_registered cfg w) = (w2, Ok exporters) ->
  rest_returns sdk exporters ->
  exists w',
    setup_tracing sdk cfg w = (w', Ok (Some (SdkTracer __name__)))
    /\ events w'
       = events w2 ++ no_exporter_warning exporters ++ attach_events exporters
         ++ propagator_events cfg
    /\ span_processors <$> tracer_provider w'
       = Some (BatchSpanProcessor <$> exporters)
    /\ global_textmap w' = Some composite_propagator.
Proof.
  intros Hen (R1 & R2 & R3) Hexp (Hatt & P1 & P2 & P3 & P4 & P5).
  pose proof (keeps_configure_exporters sdk tracer_provider
                (fun _ _ => eq_refl) cfg (provider_registered cfg w)) as Htp2.
  rewrite Hexp in Htp2. simpl in Htp2.
  destruct (attach_run exporters
              (add_events (no_exporter_warning exporters) w2) Hatt)
    as (w3 & Hrun & Hev3 & Htp3 & _).
  simpl in Hev3, Htp3. rewrite Htp2 in Htp3. simpl in Htp3.
  assert (exists tp3, tracer_provider w3 = Some tp3) as [tp3 Hsome].
  { destruct (tracer_provider w3); [by eauto|done]. }
  eexists. split.
  - unfold setup_tracing. rewrite Hen. cbn [negb].
    rewrite (setup_tracing_registers sdk cfg _ w R1 R2 R3).
    rewrite (bind_ok _ _ _ _ _ Hexp).
    rewrite (bind_ok _ _ _ _ _ (warning_run exporters w2)).
    rewrite (bind_ok _ _ _ _ _ Hrun).
    rewrite bind_call, P1, bind_call, P2, bind_call, P3.
    fold composite_propagator.
    rewrite bind_call, P4, bind_set_global_textmap, P5.
    cbv zeta. unfold bind, trace_get_tracer, logger_info, ret. simpl.
    rewrite Hsome. simpl. reflexivity.
  - rewrite Hsome in Htp3. simpl in Htp3. simpl. rewrite Hev3.
    split; [|by split]. by rewrite <- !app_assoc.
Qed.

Lemma configure_exporters_none cfg w :
  (jaeger_endpoint cfg = None \/ jaeger_endpoint cfg = Some "") ->
  (otlp_endpoint cfg = None \/ otlp_endpoint cfg = Some "") ->
  console_exporter cfg = false ->
  configure_exporters sdk cfg w = (w, Ok []).
Proof.
  intros [Hj|Hj] [Ho|Ho] Hc; unfold configure_exporters;
    rewrite Hj, Ho, Hc; reflexivity.
Qed.

(** X8.  An enabled configuration with no exporter (each endpoint unset or
    empty, console exporter off) is not an error: when the calls into the
    tracing packages return, [setup_tracing] registers the provider, logs
    the warning that no exporter is configured, attaches nothing, installs
    the propagator and returns a tracer. *)
Theorem setup_without_exporters_warns_and_completes cfg w :
  otel_enabled cfg = true ->
  (jaeger_endpoint cfg = None \/ jaeger_endpoint cfg = Some "") ->
  (otlp_endpoint cfg = None \/ otlp_endpoint cfg = Some "") ->
  console_exporter cfg = false ->
  registration_returns sdk cfg ->
  rest_returns sdk [] ->
  exists w' tracer,
    setup_tracing sdk cfg w = (w', Ok (Some tracer))
    /\ events w'
       = events (provider_registered cfg w)
         ++ Log WARNING "No OpenTelemetry exporters configured" []
            :: propagator_events cfg
    /\ span_processors <$> tracer_provider w' = Some []
    /\ global_textmap w' = Some composite_propagator.
Proof.
  intros Hen Hj Ho Hc Hreg Hrest.
  destruct (setup_tracing_completes cfg w (provider_registered cfg w) []
              Hen Hreg (configure_exporters_none cfg _ Hj Ho Hc) Hrest)
    as (w' & Hrun & Hev & Htp & Htm).
  by exists w', (SdkTracer __name__).
Qed.

(** X9.  When the exporters are constructed and the calls that follow
    return, [setup_tracing] wraps every constructed exporter in a batch
    span processor and adds it to the provider exactly once, in the order
    of construction, then installs the propagator and returns a tracer;
    the warning about missing exporters is logged only when there is
    none. *)
Theorem exporters_are_attached_in_order cfg w w2 exporters :
  otel_enabled cfg = true ->
  registration_returns sdk cfg ->
  configure_exporters sdk cfg (provider_registered cfg w) = (w2, Ok exporters) ->
  rest_returns sdk exporters ->
  exists w' tracer,
    setup_tracing sdk cfg w = (w', Ok (Some tracer))
    /\ new_events w2 w'
       = no_exporter_warning exporters ++ attach_events exporters
         ++ propagator_events cfg
    /\ span_processors <$> tracer_provider w'
       = Some (BatchSpanProcessor <$> exporters)
    /\ (exporters <> [] ->
        forall ev, ev ∈ new_events w2 w' -> ev <> Log WARNING
          "No OpenTelemetry exporters configured" []).
Proof.
  intros Hen Hreg Hexp Hrest.
  destruct (setup_tracing_completes cfg w w2 exporters Hen Hreg Hexp Hrest)
    as (w' & Hrun & Hev & Htp & Htm).
  exists w', (SdkTracer __name__).
  assert (new_events w2 w'
          = no_exporter_warning exporters ++ attach_events exporters
            ++ propagator_events cfg) as Hnew.
  { unfold new_events. by rewrite Hev, drop_app_length. }
  split; [done|]. split; [done|]. split; [done|].
  intros Hne ev Hin ->. rewrite Hnew in Hin.
  destruct exporters as [|x exporters]; [done|]. simpl in Hin.
  apply elem_of_cons in Hin as [?|Hin]; [done|].
  apply elem_of_cons in Hin as [?|Hin]; [done|].
  apply elem_of_app in Hin as [Hin|Hin].
  - unfold attach_events in Hin. apply list_elem_of_In, in_flat_map in Hin
      as (e & _ & He). simpl in He. by destruct He as [?|[?|[]]].
  - unfold propagator_events in Hin.
    repeat (apply elem_of_cons in Hin as [?|Hin]; [done|]).
    by apply elem_of_nil in Hin.
Qed.

End Completion.

(** ** The order of the exporters *)

Section Order.

Variable sdk : sdk_call -> option exn.

Ltac invert_run H :=
  repeat (apply bind_inv_ok in H as (? & ? & _ & H));
  unfold ret in H; injection H as _ H.

(** X10.  When the construction of the exporters returns, the list it
    returns holds, in this order: the Jaeger exporter if and only if the
    Jaeger endpoint is set and not empty, the OTLP exporter with the
    endpoint as it is if and only if the OTLP endpoint is set and not
    empty, and the console exporter if and only if its flag is on. *)
Theorem exporters_in_fixed_order cfg w w' exporters :
  configure_exporters sdk cfg w = (w', Ok exporters) ->
  exists jaeger,
    exporters
    = jaeger
      ++ match otlp_endpoint cfg with
         | Some ep => if Py.truthy ep then [OTLPSpanExporter ep] else []
         | None => []
         end
      ++ (if console_exporter cfg then [ConsoleSpanExporter] else [])
    /\ ((jaeger_endpoint cfg = None \/ jaeger_endpoint cfg = Some "") ->
        jaeger = [])
    /\ (forall ep,
          jaeger_endpoint cfg = Some ep -> ep <> "" ->
          exists host port, jaeger = [JaegerExporter host port]).
Proof.
  intros Hrun. unfold configure_exporters in Hrun.
  apply bind_inv_ok in Hrun as (w1 & ex1 & H1 & Hrun).
  apply bind_inv_ok in Hrun as (w2 & ex2 & H2 & Hrun).
  apply bind_inv_ok in Hrun as (w3 & ex3 & H3 & Hrun).
  unfold ret in Hrun. injection Hrun as _ <-.
  exists ex1.
  assert (ex3 = ex2 ++ (if console_exporter cfg
                        then [ConsoleSpanExporter] else [])) as ->.
  { destruct (console_exporter cfg).
    - invert_run H3. by subst.
    - unfold ret in H3. injection H3 as _ <-. by rewrite app_nil_r. }
  assert (ex2 = ex1 ++ match otlp_endpoint cfg with
                       | Some ep =>
                           if Py.truthy ep then [OTLPSpanExporter ep] else []
                       | None => []
                       end) as ->.
  { destruct (otlp_endpoint cfg) as [ep|]; [destruct (Py.truthy ep)|].
    - invert_run H2. by subst.
    - unfold ret in H2. injection H2 as _ <-. by rewrite app_nil_r.
    - unfold ret in H2. injection H2 as _ <-. by rewrite app_nil_r. }
  split; [by rewrite <- app_assoc|]. split.
  - intros [Hj|Hj]; rewrite Hj in H1; simpl in H1;
      unfold ret in H1; by injection H1 as _ <-.
  - intros ep Hj Hne. rewrite Hj in H1.
    assert (Py.truthy ep = true) as Ht by (by destruct ep).
    rewrite Ht in H1.
    apply bind_inv_ok in H1 as (? & host & _ & H1).
    apply bind_inv_ok in H1 as (? & port & _ & H1).
    invert_run H1. subst. by exists host, port.
Qed.

End Order.

(** ** Instrumentation and the whole set-up *)

Section Composition.

Variable sdk : sdk_call -> option exn.




Lemma instrument_libraries_returns cfg w :
  exists evs,
    instrument_libraries sdk cfg w = (add_events evs w, Ok tt)
    /\ Forall (fun ev => is_getenv ev = false) evs.
Proof.
  destruct (otel_enabled cfg) eqn:Hen.
  - eexists. split; [by apply instrument_libraries_run|].
    rewrite !Forall_app. repeat split;
      match goal with
      | |- Forall _ (guarded_events _ ?f ?l) =>
          unfold guarded_events; destruct f; [|by constructor];
          destruct (sdk (Instrumentor_new l));
          [|destruct (sdk (instrument l))]; by repeat constructor
      end.
  - exists []. rewrite add_events_nil. split; [|by constructor].
    by apply instrument_libraries_disabled.
Qed.

Ltac emits_setup :=
  unfold logger_info, logger_warning, trace_set_tracer_provider,
    provider_add_span_processor, propagate_set_global_textmap;
  repeat first
    [ apply emits_ret | apply emits_raise
    | apply emits_emit; by auto
    | apply emits_call; by auto
    | apply emits_index | apply emits_int | apply emits_get_tracer
    | apply emits_state; by auto
    | apply emits_for_each; intros
    | apply emits_bind; [|intros]
    | case_match ].

Lemma emits_setup_tracing cfg :
  emits (fun ev => is_getenv ev = false /\ is_instrumentation ev = false)
    (setup_tracing sdk cfg).
Proof. unfold setup_tracing, configure_exporters. emits_setup. Qed.

(** X12.  [setup_opentelemetry] with a stored configuration does what
    [setup_tracing] does and then instruments the libraries: when
    [setup_tracing] raises, it raises the same exception and no library is
    instrumented; when [setup_tracing] returns, the libraries are
    instrumented and its result is returned, whatever the instrumentors
    do. *)
Theorem setup_opentelemetry_follows_setup_tracing w c :
  _otel_config w = Some c ->
  (forall w1 e,
     setup_tracing sdk c w = (w1, Raise e) ->
     setup_opentelemetry sdk w = (w1, Raise e)
     /\ Forall (fun ev => is_instrumentation ev = false) (new_events w w1))
  /\ (forall w1 t,
        setup_tracing sdk c w = (w1, Ok t) ->
        exists evs,
          instrument_libraries sdk c w1 = (add_events evs w1, Ok tt)
          /\ setup_opentelemetry sdk w = (add_events evs w1, Ok t)).
Proof.
  intros Hc.
  assert (get_otel_config w = (w, Ok c)) as Hget.
  { unfold get_otel_config. by rewrite Hc. }
  split.
  - intros w1 e Hrun. split.
    + unfold setup_opentelemetry. rewrite (bind_ok _ _ _ _ _ Hget).
      by rewrite (bind_raise _ _ _ _ _ Hrun).
    + destruct (emits_setup_tracing c w) as (l & Hl & Fl).
      rewrite Hrun in Hl. simpl in Hl. unfold new_events.
      rewrite Hl, drop_app_length.
      eapply Forall_impl; [exact Fl|]. by intros ev [_ ?].
  - intros w1 t Hrun.
    destruct (instrument_libraries_returns c w1) as (evs & Hinstr & _).
    exists evs. split; [done|].
    unfold setup_opentelemetry. rewrite (bind_ok _ _ _ _ _ Hget).
    rewrite (bind_ok _ _ _ _ _ Hrun). by rewrite (bind_ok _ _ _ _ _ Hinstr).
Qed.



End Composition.

(** ** What the set-up does not depend on *)

Section Independence.

Variable sdk : sdk_call -> option exn.



















End Independence.

(** ** Writing the attributes and reading them back *)

Lemma append_assoc a b c :
  String.append a (String.append b c) = String.append (String.append a b) c.
Proof.
  induction a as [|x a IH]; [done|].
  change (String x (String.append a (String.append b c))
          = String x (String.append (String.append a b) c)).
  by rewrite IH.
Qed.

Lemma plain_pair_entry kv :
  plain_pair kv -> entry_is (String.append kv.1 (String "=" kv.2)) kv.
Proof. intros (_ & _ & Hk & Hs). by split. Qed.

Lemma plain_pair_no_comma kv :
  plain_pair kv ->
  Py.contains "," (String.append kv.1 (String "=" kv.2)) = false.
Proof.
  intros (Hk & Hv & _ & _). rewrite contains_app. simpl. by rewrite Hk, Hv.
Qed.

Lemma split_join kvs :
  Forall plain_pair kvs -> kvs <> [] ->
  Py.split "," (join_attributes kvs)
  = (fun kv => String.append kv.1 (String "=" kv.2)) <$> kvs.
Proof.
  induction 1 as [|[k v] kvs Hkv Hrest IH]; intros Hne; [done|].
  destruct kvs as [|kv2 kvs].
  - simpl. rewrite split_no_separator; [done|].
    by apply (plain_pair_no_comma (k, v)).
  - change (join_attributes ((k, v) :: kv2 :: kvs))
      with (String.append k
              (String "=" (String.append v
                             (String "," (join_attributes (kv2 :: kvs)))))).
    replace (String.append k
               (String "=" (String.append v
                              (String "," (join_attributes (kv2 :: kvs))))))
      with (String.append (String.append k (String "=" v))
              (String "," (join_attributes (kv2 :: kvs)))).
    + rewrite split_at_separator by (by apply (plain_pair_no_comma (k, v))).
      rewrite IH by done. reflexivity.
    + rewrite <- append_assoc. reflexivity.
Qed.

Lemma assign_all_distinct (kvs : list (string * string)) k v :
  NoDup kvs.*1 ->
  (assign_all kvs ∅ !! k = Some v <-> (k, v) ∈ kvs).
Proof.
  intros Hnd.
  assert (forall k v, (k, v) ∈ kvs -> assign_all kvs ∅ !! k = Some v) as Hin.
  { intros k0 v0 H0. apply list_elem_of_split in H0 as (l1 & l2 & ->).
    apply assign_all_last. rewrite fmap_app, fmap_cons in Hnd.
    apply NoDup_app in Hnd as (_ & _ & Hnd). by apply NoDup_cons in Hnd as [? _]. }
  split; [|by apply Hin]. intros Hk.
  destruct (assign_all_keys kvs k ∅) as [Hkeys|Hempty]; [by eauto| |].
  - apply list_elem_of_fmap in Hkeys as ([k' v'] & -> & Hkv). simpl in *.
    rewrite (Hin _ _ Hkv) in Hk. by injection Hk as <-.
  - rewrite lookup_empty in Hempty. by destruct Hempty.
Qed.

(** X16.  Attributes written as [k=v] entries separated by commas are read
    back as they were written: when no key is repeated, no key or value
    holds a comma, no key holds [=] and no entry begins or ends with white
    space, the parse of the joined string returns, without a warning, the
    map that holds exactly the pairs written (for no pair at all, the empty
    string and the empty map). *)
Theorem attributes_round_trip w kvs :
  Forall plain_pair kvs ->
  NoDup kvs.*1 ->
  environ w !! "OTEL_CUSTOM_ATTRIBUTES" = Some (join_attributes kvs) ->
  exists m : gmap string string,
    _parse_custom_attributes w
    = (add_events [Getenv "OTEL_CUSTOM_ATTRIBUTES"] w, Ok m)
    /\ forall k v, m !! k = Some v <-> (k, v) ∈ kvs.
Proof.
  intros Hplain Hnd Henv. exists (assign_all kvs ∅). split.
  - destruct kvs as [|kv kvs].
    + unfold _parse_custom_attributes. by rewrite bind_getenv_default, Henv.
    + apply parse_run_ok with (join_attributes (kv :: kvs)); [done|].
      rewrite split_join by done.
      apply Forall2_fmap_l, Forall_Forall2_diag.
      eapply Forall_impl; [exact Hplain|]. apply plain_pair_entry.
  - intros k v. by apply assign_all_distinct.
Qed.

(** ** Witnesses of the further properties *)

Lemma jaeger_endpoint_without_port_witness :
  exists rest,
    events (configure_exporters sdk_ok host_only_config (initial_world ∅)).1
    = Call (SpanExporter_new (JaegerExporter "jaeger-agent" 14268)) None
      :: rest.
Proof.
  destruct (jaeger_endpoint_without_port sdk_ok host_only_config
              "jaeger-agent" (initial_world ∅)) as [rest Hrest].
  - reflexivity.
  - discriminate.
  - reflexivity.
  - exists rest. exact Hrest.
Defined.


Lemma url_jaeger_endpoint_raises_witness :
  exists part,
    configure_exporters sdk_ok url_endpoint_config (initial_world ∅)
    = (initial_world ∅,
       Raise (ValueError (BadIntLiteral (String "/" (String "/" part))))).
Proof.
  destruct (url_jaeger_endpoint_raises sdk_ok url_endpoint_config "http"
              "jaeger-collector:14268" (initial_world ∅))
    as (part & Hrun & _).
  - reflexivity.
  - reflexivity.
  - exists part. exact Hrun.
Defined.

Lemma setup_without_exporters_warns_and_completes_witness :
  exists w' tracer,
    setup_tracing sdk_ok no_exporter_config (initial_world ∅)
    = (w', Ok (Some tracer))
    /\ span_processors <$> tracer_provider w' = Some [].
Proof.
  destruct (setup_without_exporters_warns_and_completes sdk_ok
              no_exporter_config (initial_world ∅))
    as (w' & tracer & Hrun & _ & Htp & _).
  - reflexivity.
  - by right.
  - by left.
  - reflexivity.
  - by repeat split.
  - by repeat split.
  - exists w', tracer. split; [exact Hrun|exact Htp].
Defined.

Lemma exporters_are_attached_in_order_witness :
  exists w' tracer,
    setup_tracing sdk_ok sample_config (initial_world ∅)
    = (w', Ok (Some tracer))
    /\ span_processors <$> tracer_provider w'
       = Some [BatchSpanProcessor (JaegerExporter "jaeger-collector" 14268);
               BatchSpanProcessor (OTLPSpanExporter "http://collector:4317");
               BatchSpanProcessor ConsoleSpanExporter].
Proof.
  destruct (exporters_are_attached_in_order sdk_ok sample_config
              (initial_world ∅)
              (configure_exporters sdk_ok sample_config
                 (provider_registered sample_config (initial_world ∅))).1
              [JaegerExporter "jaeger-collector" 14268;
               OTLPSpanExporter "http://collector:4317";
               ConsoleSpanExporter])
    as (w' & tracer & Hrun & _ & Htp & _).
  - reflexivity.
  - by repeat split.
  - vm_compute; reflexivity.
  - by repeat split.
  - exists w', tracer. split; [exact Hrun|exact Htp].
Defined.

Lemma exporters_in_fixed_order_witness :
  exists jaeger,
    [JaegerExporter "jaeger-collector" 14268;
     OTLPSpanExporter "http://collector:4317"; ConsoleSpanExporter]
    = jaeger ++ [OTLPSpanExporter "http://collector:4317"]
      ++ [ConsoleSpanExporter].
Proof.
  destruct (exporters_in_fixed_order sdk_ok sample_config (initial_world ∅)
              (configure_exporters sdk_ok sample_config (initial_world ∅)).1
              [JaegerExporter "jaeger-collector" 14268;
               OTLPSpanExporter "http://collector:4317";
               ConsoleSpanExporter])
    as (jaeger & Heq & _).
  - vm_compute; reflexivity.
  - exists jaeger. exact Heq.
Defined.


Lemma setup_opentelemetry_follows_setup_tracing_witness :
  setup_opentelemetry sdk_ok
    (get_otel_config (initial_world env_bad_port)).1
  = ((setup_tracing sdk_ok
        (config_of_environ env_bad_port (Py.FDec false 1 (-1)) ∅)
        (get_otel_config (initial_world env_bad_port)).1).1,
     Raise (ValueError (BadIntLiteral "not-a-port"))).
Proof.
  refine (proj1 (proj1 (setup_opentelemetry_follows_setup_tracing sdk_ok
                          (get_otel_config (initial_world env_bad_port)).1
                          (config_of_environ env_bad_port
                             (Py.FDec false 1 (-1)) ∅) _) _ _ _)).
  - vm_compute; reflexivity.
  - vm_compute; reflexivity.
Defined.


Lemma attributes_round_trip_witness :
  exists m : gmap string string,
    (_parse_custom_attributes (initial_world env_two_attributes)).2 = Ok m
    /\ m !! "team" = Some "inventory" /\ m !! "query" = Some "a=b".
Proof.
  destruct (attributes_round_trip (initial_world env_two_attributes)
              [("team", "inventory"); ("query", "a=b")])
    as (m & Hrun & Hm).
  - repeat constructor.
  - apply (bool_decide_unpack _). vm_compute. exact I.
  - vm_compute; reflexivity.
  - exists m. split; [by rewrite Hrun|].
    split; apply Hm; repeat constructor.
Defined.

